(** * Detection evaluation of the object-detection notebook

    A shallow embedding of the algorithmic cells of
    [Dataset_student_Notebook_LAB_Object_Detection_transfer_learning]:
    [calculate_iou], [evaluate_model_performance], and the labelling loops
    of [run_detector_and_visualize] and [process_uploaded_image].

    Numbers.  Counters are Python integers, hence [Z].  For the counting
    logic, box ordinates, scores and IoU values are rationals ([Q], with
    [Qeq], [==], for equality): finite floating-point values are rationals
    and their comparisons are exact.  [calculate_iou] is embedded twice: on
    exact rationals, which leaves rounding, overflow and underflow out, and
    on IEEE 754 floats (module [IEEE], over [SpecFloat]), which has them.
    The evaluator is also given with the IoU function as a parameter, so
    that what is proved of it does not depend on the arithmetic.

    Exceptions.  The Python code can raise; a computation returns
    [exn + A] (ExtLib's error monad on [sum]), [inl e] for a raised [e]. *)

From Stdlib Require Import ZArith QArith Qround String List Bool Lia Lqa Psatz.
From Stdlib Require Import SpecFloat.
From ExtLib Require Import Structures.Monad Structures.MonadExc.
From ExtLib Require Import Data.Monads.EitherMonad.
Import ListNotations.
Import MonadNotation.
Local Open Scope monad_scope.
Local Open Scope Q_scope.

(** ** Python primitives *)

Inductive exn : Type :=
| ZeroDivisionError
| IndexError
| UnboundLocalError.

Abbreviation py := (sum exn).

(** [a < b] on numbers, as a boolean. *)
Definition Qltb (a b : Q) : bool := negb (Qle_bool b a).

(** [max(a, b)]: the first argument unless the second is strictly larger. *)
Definition py_max (a b : Q) : Q := if Qltb a b then b else a.

(** [min(a, b)]: the first argument unless the second is strictly smaller. *)
Definition py_min (a b : Q) : Q := if Qltb b a then b else a.

(** [a / b]: true division raises on a zero divisor. *)
Definition py_div (a b : Q) : py Q :=
  if Qeq_bool b 0 then raise ZeroDivisionError else ret (a / b).

(** [l[i]] for an index that is not negative. *)
Definition py_get {A : Type} (l : list A) (i : nat) : py A :=
  match nth_error l i with
  | Some x => ret x
  | None => raise IndexError
  end.

(** [int(x)] and [astype(int)]: truncation toward zero. *)
Definition py_int (x : Q) : Z :=
  if Qltb x 0 then Qceiling x else Qfloor x.

(** ** Boxes and IoU *)

(** A box is the sequence [[b[0], b[1], b[2], b[3]]]; [calculate_iou] reads
    it as [[ymin, xmin, ymax, xmax]]. *)
Record Box : Type := mkBox { ymin : Q; xmin : Q; ymax : Q; xmax : Q }.

Definition intersection_area (box1 box2 : Box) : Q :=
  let y1 := py_max (ymin box1) (ymin box2) in
  let x1 := py_max (xmin box1) (xmin box2) in
  let y2 := py_min (ymax box1) (ymax box2) in
  let x2 := py_min (xmax box1) (xmax box2) in
  py_max 0 (y2 - y1) * py_max 0 (x2 - x1).

Definition box_area (b : Box) : Q := (ymax b - ymin b) * (xmax b - xmin b).

Definition union_area (box1 box2 : Box) : Q :=
  box_area box1 + box_area box2 - intersection_area box1 box2.

Definition calculate_iou (box1 box2 : Box) : py Q :=
  let intersection := intersection_area box1 box2 in
  let union := union_area box1 box2 in
  if Qeq_bool union 0 then ret 0
  else iou <- py_div intersection union ;; ret iou.

(** The value [calculate_iou] returns, without the exception layer; see
    [calculate_iou_returns]. *)
Definition iou_value (box1 box2 : Box) : Q :=
  if Qeq_bool (union_area box1 box2) 0 then 0
  else intersection_area box1 box2 / union_area box1 box2.

(** The data-model invariant of a box, and non-degeneracy. *)
Definition valid_box (b : Box) : Prop := ymin b <= ymax b /\ xmin b <= xmax b.

Definition non_degenerate (b : Box) : Prop := ymin b < ymax b /\ xmin b < xmax b.

(** ** Loops *)

(** [for x in l: s = body(x, s)], abandoned at the first exception. *)
Fixpoint for_each {A S : Type} (l : list A) (body : A -> S -> py S) (s : S)
  : py S :=
  match l with
  | [] => ret s
  | x :: rest => s' <- body x s ;; for_each rest body s'
  end.

Definition enumerate_from {A : Type} (k : nat) (l : list A) : list (nat * A) :=
  combine (seq k (length l)) l.

(** [enumerate(l)] *)
Definition enumerate {A : Type} (l : list A) : list (nat * A) :=
  enumerate_from 0 l.

(** ** The evaluator *)

(** What the detector returns for one image, batch axis removed:
    [result['detection_boxes'][0]], [result['detection_scores'][0]],
    [result['detection_classes'][0]] (class ids come as floats). *)
Record Detections : Type := mkDetections {
  detection_boxes : list Box;
  detection_scores : list Q;
  detection_classes : list Q
}.

(** A dataset record: [example["image"]], [example["objects"]["bbox"]],
    [example["objects"]["label"]]. *)
Record Example (Image : Type) : Type := mkExample {
  image : Image;
  objects_bbox : list Box;
  objects_label : list Z
}.
Arguments mkExample {Image}.
Arguments image {Image}.
Arguments objects_bbox {Image}.
Arguments objects_label {Image}.

(** The local variables of [evaluate_model_performance] that outlive one
    iteration.  [gt_index] is assigned only inside the matching loop, so it
    is unbound ([None]) until a first ground-truth box has been selected and
    keeps its last value afterwards. *)
Record Locals : Type := mkLocals {
  true_positives : Z;
  false_positives : Z;
  false_negatives : Z;
  gt_index : option nat
}.

Definition initial_locals : Locals := mkLocals 0 0 0 None.

(** The literal [0.5] of [if score < 0.5: continue]. *)
Definition confidence_threshold : Q := 1 # 2.

(** [[pred_box[1], pred_box[0], pred_box[3], pred_box[2]]] *)
Definition swap_axes (b : Box) : Box :=
  mkBox (xmin b) (ymin b) (xmax b) (ymax b).

(** Reading a local variable that may not have been assigned. *)
Definition read_local {A : Type} (v : option A) : py A :=
  match v with
  | Some x => ret x
  | None => raise UnboundLocalError
  end.

(** Body of [for j, gt_box in enumerate(gt_boxes)]; the loop state is
    [(best_iou, gt_index)]. *)
Definition match_body (pred_box : Box) (jg : nat * Box) (s : Q * option nat)
  : py (Q * option nat) :=
  let '(j, gt_box) := jg in
  let '(best_iou, gt_index) := s in
  iou <- calculate_iou gt_box pred_box ;;
  if Qltb best_iou iou then ret (iou, Some j) else ret (best_iou, gt_index).

(** Body of [for i, score in enumerate(pred_scores)]. *)
Definition detection_body (iou_threshold : Q)
    (gt_boxes : list Box) (gt_labels : list Z)
    (pred_boxes : list Box) (pred_labels : list Z)
    (d : nat * Q) (st : Locals) : py Locals :=
  let '(i, score) := d in
  if Qltb score confidence_threshold then ret st
  else
    pred_box <- py_get pred_boxes i ;;
    let pred_box := swap_axes pred_box in
    m <- for_each (enumerate gt_boxes) (match_body pred_box) (0, gt_index st) ;;
    let '(best_iou, gt_index) := m in
    if Qltb iou_threshold best_iou then
      pl <- py_get pred_labels i ;;
      j <- read_local gt_index ;;
      gl <- py_get gt_labels j ;;
      if Z.eqb pl gl then
        ret (mkLocals (true_positives st + 1) (false_positives st)
                      (false_negatives st) gt_index)
      else
        ret (mkLocals (true_positives st) (false_positives st + 1)
                      (false_negatives st) gt_index)
    else
      ret (mkLocals (true_positives st) (false_positives st + 1)
                    (false_negatives st) gt_index).

(** Body of [for example in dataset.take(num_samples)]. *)
Definition image_body {Image : Type} (detector : Image -> Detections)
    (iou_threshold : Q) (example : Example Image) (st : Locals) : py Locals :=
  let gt_boxes := objects_bbox example in
  let gt_labels := objects_label example in
  let result := detector (image example) in
  let pred_boxes := detection_boxes result in
  let pred_scores := detection_scores result in
  let pred_labels := map py_int (detection_classes result) in
  st' <- for_each (enumerate pred_scores)
           (detection_body iou_threshold gt_boxes gt_labels pred_boxes pred_labels)
           st ;;
  ret (mkLocals (true_positives st') (false_positives st')
         (false_negatives st' + (Z.of_nat (length gt_boxes) - true_positives st'))
         (gt_index st')).

(** The fields printed at the end of the run. *)
Record Report : Type := mkReport {
  True_Positives : Z;
  False_Positives : Z;
  False_Negatives : Z;
  Precision : Q;
  Recall : Q
}.

(** [a / b if b > 0 else 0] on integer counters. *)
Definition guarded_ratio (a b : Z) : py Q :=
  if Z.ltb 0 b then py_div (inject_Z a) (inject_Z b) else ret 0.

Definition final_report (st : Locals) : py Report :=
  precision <- guarded_ratio (true_positives st)
                 (true_positives st + false_positives st) ;;
  recall <- guarded_ratio (true_positives st)
              (true_positives st + false_negatives st) ;;
  ret (mkReport (true_positives st) (false_positives st) (false_negatives st)
         precision recall).

(** The counting loops of [evaluate_model_performance]. *)
Definition count_detections {Image : Type} (dataset : list (Example Image))
    (detector : Image -> Detections) (iou_threshold : Q) (num_samples : nat)
  : py Locals :=
  for_each (firstn num_samples dataset) (image_body detector iou_threshold)
    initial_locals.

Definition evaluate_model_performance {Image : Type}
    (dataset : list (Example Image)) (detector : Image -> Detections)
    (iou_threshold : Q) (num_samples : nat) : py Report :=
  st <- count_detections dataset detector iou_threshold num_samples ;;
  final_report st.

(** ** Labelling loops *)

(** [l[i]] for a Python integer: a negative index counts from the end. *)
Definition py_index {A : Type} (l : list A) (i : Z) : py A :=
  let n := Z.of_nat (length l) in
  if Z.ltb i 0 then
    if Z.leb (- n) i then py_get l (Z.to_nat (n + i)) else raise IndexError
  else py_get l (Z.to_nat i).

(** One labelled item of output: the text drawn next to a predicted box, or
    one printed line [- label with confidence score]. *)
Record Labelled : Type := mkLabelled {
  shown_label : string;
  shown_score : Q
}.

(** Body of the predicted-boxes loop of [run_detector_and_visualize].  The
    local [label] is assigned only under [class_id < len(class_names)]; the
    state is [(label, texts drawn so far)]. *)
Definition visualize_body (class_names : list string) (result : Detections)
    (d : nat * Q) (s : option string * list Labelled)
  : py (option string * list Labelled) :=
  let '(i, score) := d in
  let '(label, drawn) := s in
  if Qltb confidence_threshold score then
    _ <- py_get (detection_boxes result) i ;;
    c <- py_get (detection_classes result) i ;;
    let class_id := py_int c in
    label <- (if Z.ltb class_id (Z.of_nat (length class_names))
              then n <- py_index class_names class_id ;; ret (Some n)
              else ret label) ;;
    shown <- read_local label ;;
    ret (label, drawn ++ [mkLabelled shown score])
  else ret s.

Definition run_detector_and_visualize (class_names : list string)
    (result : Detections) : py (list Labelled) :=
  s <- for_each (enumerate (detection_scores result))
         (visualize_body class_names result) (None, []) ;;
  ret (snd s).

(** Body of the printing loop of [process_uploaded_image]. *)
Definition report_body (class_names : list string) (detections : Detections)
    (d : nat * Q) (printed : list Labelled) : py (list Labelled) :=
  let '(i, score) := d in
  if Qltb confidence_threshold score then
    c <- py_get (detection_classes detections) i ;;
    let class_id := py_int c in
    label <- (if Z.ltb class_id (Z.of_nat (length class_names))
              then py_index class_names class_id
              else ret "UNKNOWN"%string) ;;
    ret (printed ++ [mkLabelled label score])
  else ret printed.

(** The lines printed by [process_uploaded_image] after
    [Detected objects:], given what [run_detector] returned. *)
Definition process_uploaded_image (class_names : list string)
    (detections : Detections) : py (list Labelled) :=
  for_each (enumerate (detection_scores detections))
    (report_body class_names detections) [].

(** ** Further vocabulary *)

(** Ground-truth boxes over a list of examples. *)
Definition ground_truth_total {Image : Type} (l : list (Example Image)) : Z :=
  Z.of_nat (list_sum (map (fun example => List.length (objects_bbox example)) l)).

(** ** Vocabulary of the statements *)

(** The IoU of every ground-truth box against a predicted box, in the order
    and with the argument order of the matching loop. *)
Definition ious (gt_boxes : list Box) (pred_box : Box) : list Q :=
  map (fun gt_box => iou_value gt_box pred_box) gt_boxes.

(** Ground-truth box [j] is the best match of [pred_box], with IoU [v]: no
    box has a higher IoU and no earlier box reaches [v]. *)
Definition best_match (gt_boxes : list Box) (pred_box : Box) (j : nat) (v : Q)
  : Prop :=
  nth_error (ious gt_boxes pred_box) j = Some v /\
  (forall k w, nth_error (ious gt_boxes pred_box) k = Some w -> w <= v) /\
  (forall k w, (k < j)%nat ->
               nth_error (ious gt_boxes pred_box) k = Some w -> w < v).

(** A detection survives the confidence filter when [score < 0.5] fails. *)
Definition survives (score : Q) : bool := negb (Qltb score confidence_threshold).

Definition survivors (scores : list Q) : nat :=
  List.length (filter survives scores).

(** The arrays of one example are parallel: one label per ground-truth box,
    one box and one class per score. *)
Definition parallel_arrays {Image : Type} (detector : Image -> Detections)
    (example : Example Image) : Prop :=
  let result := detector (image example) in
  List.length (objects_label example) = List.length (objects_bbox example) /\
  List.length (detection_boxes result) = List.length (detection_scores result) /\
  List.length (detection_classes result) = List.length (detection_scores result).

(** The locals of [evaluate_model_performance] once [k] images have been
    processed entirely and then the first [m] detections of the next one. *)
Definition locals_at {Image : Type} (dataset : list (Example Image))
    (detector : Image -> Detections) (iou_threshold : Q) (num_samples : nat)
    (k m : nat) : py Locals :=
  let taken := firstn num_samples dataset in
  st <- for_each (firstn k taken) (image_body detector iou_threshold)
          initial_locals ;;
  match nth_error taken k with
  | Some example =>
      let result := detector (image example) in
      for_each (firstn m (enumerate (detection_scores result)))
        (detection_body iou_threshold (objects_bbox example)
           (objects_label example) (detection_boxes result)
           (map py_int (detection_classes result)))
        st
  | None => ret st
  end.

(** Surviving detections among those processed at that point. *)
Definition survivors_at {Image : Type} (dataset : list (Example Image))
    (detector : Image -> Detections) (num_samples : nat) (k m : nat) : nat :=
  let taken := firstn num_samples dataset in
  (list_sum (map (fun example =>
                    survivors (detection_scores (detector (image example))))
               (firstn k taken))
   + match nth_error taken k with
     | Some example =>
         survivors (firstn m (detection_scores (detector (image example))))
     | None => 0
     end)%nat.

(** Between two states of the detection loop: the detection counters have
    not decreased and [false_negatives] is untouched. *)
Definition counted_up (st st' : Locals) : Prop :=
  (true_positives st <= true_positives st')%Z /\
  (false_positives st <= false_positives st')%Z /\
  false_negatives st' = false_negatives st.

(** The single ground-truth box of [example] is matched with IoU 1 by the
    single detection returned for it, which carries the same label and a
    score that passes the confidence filter. *)
Definition perfectly_detected {Image : Type} (detector : Image -> Detections)
    (example : Example Image) : Prop :=
  exists g l p s c,
    objects_bbox example = [g] /\ objects_label example = [l] /\
    detector (image example) = mkDetections [p] [s] [c] /\
    iou_value g (swap_axes p) == 1 /\
    py_int c = l /\
    ~ s < confidence_threshold.

(** ** The evaluator, whatever the arithmetic of [calculate_iou] *)

(** The counting logic of [evaluate_model_performance] uses
    [calculate_iou] only through the numbers it returns and through
    comparisons of these numbers, which are exact on floating-point values.
    In the definitions below the IoU function is a parameter, [iou_of]:
    they are the definitions above with [iou_of] in the place of
    [calculate_iou], and what is proved of them holds of the run on the
    rounded IoU values as of the run on the exact ones. *)
Definition match_body_with (iou_of : Box -> Box -> py Q) (pred_box : Box)
    (jg : nat * Box) (s : Q * option nat) : py (Q * option nat) :=
  let '(j, gt_box) := jg in
  let '(best_iou, gt_index) := s in
  iou <- iou_of gt_box pred_box ;;
  if Qltb best_iou iou then ret (iou, Some j) else ret (best_iou, gt_index).

Definition detection_body_with (iou_of : Box -> Box -> py Q)
    (iou_threshold : Q)
    (gt_boxes : list Box) (gt_labels : list Z)
    (pred_boxes : list Box) (pred_labels : list Z)
    (d : nat * Q) (st : Locals) : py Locals :=
  let '(i, score) := d in
  if Qltb score confidence_threshold then ret st
  else
    pred_box <- py_get pred_boxes i ;;
    let pred_box := swap_axes pred_box in
    m <- for_each (enumerate gt_boxes) (match_body_with iou_of pred_box)
           (0, gt_index st) ;;
    let '(best_iou, gt_index) := m in
    if Qltb iou_threshold best_iou then
      pl <- py_get pred_labels i ;;
      j <- read_local gt_index ;;
      gl <- py_get gt_labels j ;;
      if Z.eqb pl gl then
        ret (mkLocals (true_positives st + 1) (false_positives st)
                      (false_negatives st) gt_index)
      else
        ret (mkLocals (true_positives st) (false_positives st + 1)
                      (false_negatives st) gt_index)
    else
      ret (mkLocals (true_positives st) (false_positives st + 1)
                    (false_negatives st) gt_index).

Definition image_body_with {Image : Type} (iou_of : Box -> Box -> py Q)
    (detector : Image -> Detections) (iou_threshold : Q)
    (example : Example Image) (st : Locals) : py Locals :=
  let gt_boxes := objects_bbox example in
  let gt_labels := objects_label example in
  let result := detector (image example) in
  let pred_boxes := detection_boxes result in
  let pred_scores := detection_scores result in
  let pred_labels := map py_int (detection_classes result) in
  st' <- for_each (enumerate pred_scores)
           (detection_body_with iou_of iou_threshold gt_boxes gt_labels
              pred_boxes pred_labels)
           st ;;
  ret (mkLocals (true_positives st') (false_positives st')
         (false_negatives st' + (Z.of_nat (List.length gt_boxes) - true_positives st'))
         (gt_index st')).

Definition evaluate_model_performance_with {Image : Type}
    (iou_of : Box -> Box -> py Q)
    (dataset : list (Example Image)) (detector : Image -> Detections)
    (iou_threshold : Q) (num_samples : nat) : py Report :=
  st <- for_each (firstn num_samples dataset)
          (image_body_with iou_of detector iou_threshold) initial_locals ;;
  final_report st.



(** ** [calculate_iou] in floating point *)

(** [calculate_iou] on IEEE 754 binary floating-point numbers, with the
    operations of [SpecFloat]: rounding to nearest even, infinities and NaN.
    The integer literal [0] of [max(0, ...)] and of [return 0] is the float
    [+0.0], to which Python converts it in every operation it enters. *)
Module IEEE.

(** A binary format: bits of precision, and the exponent bound. *)
Record Format : Type := mkFormat { prec : Z; emax : Z }.


(** numpy's [float32], the type of the boxes inside the evaluator. *)
Definition binary32 : Format := mkFormat 24 128.

(** The number [m * 2 ^ e], rounded to the format. *)
Definition float (fmt : Format) (m e : Z) : spec_float :=
  binary_normalize (prec fmt) (emax fmt) m e false.

Definition zero : spec_float := S754_zero false.


Record Box : Type := mkBox {
  ymin : spec_float;
  xmin : spec_float;
  ymax : spec_float;
  xmax : spec_float
}.

(** [max(a, b)]: [b] when [b > a], else [a]; a comparison with NaN fails. *)
Definition py_max (a b : spec_float) : spec_float := if SFltb a b then b else a.

(** [min(a, b)]: [b] when [b < a], else [a]. *)
Definition py_min (a b : spec_float) : spec_float := if SFltb b a then b else a.

(** [a / b] on Python floats raises on a zero divisor. *)
Definition py_div (fmt : Format) (a b : spec_float) : py spec_float :=
  if SFeqb b zero then raise ZeroDivisionError
  else ret (SFdiv (prec fmt) (emax fmt) a b).

Definition intersection_area (fmt : Format) (box1 box2 : Box) : spec_float :=
  let y1 := py_max (ymin box1) (ymin box2) in
  let x1 := py_max (xmin box1) (xmin box2) in
  let y2 := py_min (ymax box1) (ymax box2) in
  let x2 := py_min (xmax box1) (xmax box2) in
  SFmul (prec fmt) (emax fmt)
    (py_max zero (SFsub (prec fmt) (emax fmt) y2 y1))
    (py_max zero (SFsub (prec fmt) (emax fmt) x2 x1)).

Definition box_area (fmt : Format) (b : Box) : spec_float :=
  SFmul (prec fmt) (emax fmt)
    (SFsub (prec fmt) (emax fmt) (ymax b) (ymin b))
    (SFsub (prec fmt) (emax fmt) (xmax b) (xmin b)).

Definition union_area (fmt : Format) (box1 box2 : Box) : spec_float :=
  SFsub (prec fmt) (emax fmt)
    (SFadd (prec fmt) (emax fmt) (box_area fmt box1) (box_area fmt box2))
    (intersection_area fmt box1 box2).

Definition calculate_iou (fmt : Format) (box1 box2 : Box) : py spec_float :=
  let intersection := intersection_area fmt box1 box2 in
  let union := union_area fmt box1 box2 in
  if SFeqb union zero then ret zero
  else iou <- py_div fmt intersection union ;; ret iou.

(** [ymin <= ymax and xmin <= xmax] *)
Definition valid_box (b : Box) : bool :=
  SFleb (ymin b) (ymax b) && SFleb (xmin b) (xmax b).

(** [ymin < ymax and xmin < xmax] *)
Definition non_degenerate (b : Box) : bool :=
  SFltb (ymin b) (ymax b) && SFltb (xmin b) (xmax b).






(** The float32 boxes [[0, 0, 2**64, 2**64]] and [[0, 0, 2**-80, 2**-80]]. *)
Definition huge_box32 : Box :=
  mkBox zero zero (float binary32 1 64) (float binary32 1 64).

Definition tiny_box32 : Box :=
  mkBox zero zero (float binary32 1 (-80)) (float binary32 1 (-80)).

End IEEE.

(** ** Sample inputs *)

Definition unit_box : Box := mkBox 0 0 1 1.

(** A detector that answers every image with [unit_box], class 7,
    score 0.9. *)
Definition sample_detector (_ : unit) : Detections :=
  mkDetections [unit_box] [9 # 10] [7].

(** An image whose only object is [unit_box] with label 7. *)
Definition sample_example : Example unit := mkExample tt [unit_box] [7%Z].

(** The twenty label names of the dataset. *)
Definition voc_class_names : list string :=
  ["aeroplane"; "bicycle"; "bird"; "boat"; "bottle"; "bus"; "car"; "cat";
   "chair"; "cow"; "diningtable"; "dog"; "horse"; "motorbike"; "person";
   "pottedplant"; "sheep"; "sofa"; "train"; "tvmonitor"]%string.

(** A detector answer with one detection, of class id 25 and score 0.9. *)
Definition sample_unknown : Detections :=
  mkDetections [unit_box] [9 # 10] [25].

(** A known class (id 1) followed by class id 25. *)
Definition sample_known_then_unknown : Detections :=
  mkDetections [unit_box; unit_box] [9 # 10; 8 # 10] [1; 25].

(** * Properties *)

(** ** Comparisons, [max] and [min] *)

Lemma Qltb_spec (a b : Q) : reflect (a < b) (Qltb a b).
Proof.
  unfold Qltb. destruct (Qle_bool b a) eqn:E; constructor.
  - apply Qle_bool_iff in E. lra.
  - assert (~ b <= a) as N by (intros L; apply Qle_bool_iff in L; congruence).
    lra.
Qed.

Lemma Qeq_bool_spec (a b : Q) : reflect (a == b) (Qeq_bool a b).
Proof.
  destruct (Qeq_bool a b) eqn:E; constructor.
  - now apply Qeq_bool_iff.
  - intros H. apply Qeq_bool_iff in H. congruence.
Qed.

Lemma py_max_cases (a b : Q) :
  (a < b /\ py_max a b = b) \/ (b <= a /\ py_max a b = a).
Proof. unfold py_max. destruct (Qltb_spec a b); [left | right]; split; auto; lra. Qed.

Lemma py_min_cases (a b : Q) :
  (b < a /\ py_min a b = b) \/ (a <= b /\ py_min a b = a).
Proof. unfold py_min. destruct (Qltb_spec b a); [left | right]; split; auto; lra. Qed.

Ltac split_on_max a b :=
  let H := fresh "Hmax" in let E := fresh "Emax" in
  destruct (py_max_cases a b) as [[H E] | [H E]]; rewrite E in *; clear E.

Ltac split_on_min a b :=
  let H := fresh "Hmin" in let E := fresh "Emin" in
  destruct (py_min_cases a b) as [[H E] | [H E]]; rewrite E in *; clear E.

Ltac split_max_min :=
  repeat match goal with
  | |- context [py_max ?a ?b] => split_on_max a b
  | |- context [py_min ?a ?b] => split_on_min a b
  | _ : context [py_max ?a ?b] |- _ => split_on_max a b
  | _ : context [py_min ?a ?b] |- _ => split_on_min a b
  end.

(** ** [calculate_iou] *)

Section IoU.

Variables box1 box2 : Box.

(** The division is never reached with a zero divisor. *)
Lemma calculate_iou_returns : calculate_iou box1 box2 = inr (iou_value box1 box2).
Proof.
  unfold calculate_iou, iou_value, py_div.
  destruct (Qeq_bool (union_area box1 box2) 0); reflexivity.
Qed.

Lemma intersection_area_nonneg : 0 <= intersection_area box1 box2.
Proof.
  unfold intersection_area; cbv zeta.
  apply Qmult_le_0_compat;
    match goal with
    | |- 0 <= py_max 0 ?d => destruct (py_max_cases 0 d) as [[? ->] | [? ->]]; lra
    end.
Qed.

Lemma intersection_area_le_1 :
  valid_box box1 -> intersection_area box1 box2 <= box_area box1.
Proof.
  intros [Hy Hx]. unfold intersection_area, box_area; cbv zeta.
  split_max_min; nra.
Qed.

Lemma intersection_area_le_2 :
  valid_box box2 -> intersection_area box1 box2 <= box_area box2.
Proof.
  intros [Hy Hx]. unfold intersection_area, box_area; cbv zeta.
  split_max_min; nra.
Qed.

Lemma intersection_le_union :
  valid_box box1 -> valid_box box2 ->
  intersection_area box1 box2 <= union_area box1 box2.
Proof.
  intros V1 V2. unfold union_area.
  pose proof (intersection_area_le_1 V1).
  pose proof (intersection_area_le_2 V2). lra.
Qed.

(** A box of zero area leaves an empty intersection. *)
Lemma intersection_area_zero_1 :
  box_area box1 == 0 -> intersection_area box1 box2 == 0.
Proof.
  unfold intersection_area, box_area; cbv zeta. intros H.
  apply Qmult_integral in H. destruct H as [H | H]; split_max_min; nra.
Qed.

Lemma intersection_area_zero_2 :
  box_area box2 == 0 -> intersection_area box1 box2 == 0.
Proof.
  unfold intersection_area, box_area; cbv zeta. intros H.
  apply Qmult_integral in H. destruct H as [H | H]; split_max_min; nra.
Qed.

End IoU.

Lemma iou_value_bounded (box1 box2 : Box) :
  valid_box box1 -> valid_box box2 ->
  0 <= iou_value box1 box2 /\ iou_value box1 box2 <= 1.
Proof.
  intros V1 V2. unfold iou_value.
  pose proof (intersection_area_nonneg box1 box2) as I0.
  pose proof (intersection_le_union box1 box2 V1 V2) as IU.
  destruct (Qeq_bool_spec (union_area box1 box2) 0) as [U0 | U0]; [lra |].
  assert (0 < union_area box1 box2) as Upos by lra.
  split.
  - apply Qle_shift_div_l; [assumption | lra].
  - apply Qle_shift_div_r; [assumption | lra].
Qed.

(** In exact arithmetic, the IoU of two valid boxes (ymin <= ymax and
    xmin <= xmax in each) lies between 0 and 1 inclusive. *)
Theorem calculate_iou_bounded (box1 box2 : Box) :
  valid_box box1 -> valid_box box2 ->
  exists iou, calculate_iou box1 box2 = inr iou /\ 0 <= iou /\ iou <= 1.
Proof.
  intros V1 V2. exists (iou_value box1 box2). split.
  - apply calculate_iou_returns.
  - apply iou_value_bounded; assumption.
Qed.

Lemma calculate_iou_bounded_witness :
  valid_box (mkBox 0 0 10 10) /\ valid_box (mkBox 5 5 15 15) /\
  exists iou,
    calculate_iou (mkBox 0 0 10 10) (mkBox 5 5 15 15) = inr iou /\
    0 <= iou /\ iou <= 1.
Proof.
  assert (valid_box (mkBox 0 0 10 10)) as V1 by (split; simpl; lra).
  assert (valid_box (mkBox 5 5 15 15)) as V2 by (split; simpl; lra).
  split; [exact V1 | split; [exact V2 |]].
  exact (calculate_iou_bounded (mkBox 0 0 10 10) (mkBox 5 5 15 15) V1 V2).
Defined.

(** In exact arithmetic, the IoU of two valid boxes of which one has zero
    area is 0; and when the union area is 0 the guarded branch returns the
    literal 0, no division taking place. *)
Theorem calculate_iou_zero_area (box1 box2 : Box) :
  valid_box box1 -> valid_box box2 ->
  box_area box1 == 0 \/ box_area box2 == 0 ->
  (exists iou, calculate_iou box1 box2 = inr iou /\ iou == 0) /\
  (union_area box1 box2 == 0 -> calculate_iou box1 box2 = inr 0).
Proof.
  intros _ _ Z. split.
  - exists (iou_value box1 box2). split; [apply calculate_iou_returns |].
    assert (intersection_area box1 box2 == 0) as I0.
    { destruct Z as [Z | Z];
        [apply intersection_area_zero_1 | apply intersection_area_zero_2];
        exact Z. }
    unfold iou_value.
    destruct (Qeq_bool_spec (union_area box1 box2) 0) as [U0 | U0];
      [reflexivity |].
    rewrite I0. unfold Qdiv. apply Qmult_0_l.
  - intros U0. unfold calculate_iou.
    destruct (Qeq_bool_spec (union_area box1 box2) 0); [reflexivity | contradiction].
Qed.

Lemma calculate_iou_zero_area_witness :
  valid_box (mkBox 2 2 2 7) /\ valid_box (mkBox 0 0 10 10) /\
  (box_area (mkBox 2 2 2 7) == 0 \/ box_area (mkBox 0 0 10 10) == 0) /\
  (exists iou,
      calculate_iou (mkBox 2 2 2 7) (mkBox 0 0 10 10) = inr iou /\ iou == 0) /\
  (union_area (mkBox 2 2 2 7) (mkBox 0 0 10 10) == 0 ->
   calculate_iou (mkBox 2 2 2 7) (mkBox 0 0 10 10) = inr 0).
Proof.
  assert (valid_box (mkBox 2 2 2 7)) as V1 by (split; simpl; lra).
  assert (valid_box (mkBox 0 0 10 10)) as V2 by (split; simpl; lra).
  assert (box_area (mkBox 2 2 2 7) == 0 \/ box_area (mkBox 0 0 10 10) == 0)
    as Z by (left; reflexivity).
  split; [exact V1 | split; [exact V2 | split; [exact Z |]]].
  exact (calculate_iou_zero_area (mkBox 2 2 2 7) (mkBox 0 0 10 10) V1 V2 Z).
Defined.

(** In exact arithmetic, the IoU of a box of positive height and width
    with itself is 1. *)
Theorem calculate_iou_self (b : Box) :
  non_degenerate b ->
  exists iou, calculate_iou b b = inr iou /\ iou == 1.
Proof.
  intros [Hy Hx]. exists (iou_value b b). split; [apply calculate_iou_returns |].
  assert (intersection_area b b == box_area b) as EI.
  { unfold intersection_area, box_area; cbv zeta. split_max_min; nra. }
  assert (0 < box_area b) as Apos.
  { unfold box_area. apply Qmult_lt_0_compat; lra. }
  assert (union_area b b == box_area b) as EU by (unfold union_area; lra).
  unfold iou_value.
  destruct (Qeq_bool_spec (union_area b b) 0) as [U0 | U0]; [lra |].
  rewrite EI, EU. field. lra.
Qed.

Lemma calculate_iou_self_witness :
  non_degenerate (mkBox 0 0 10 10) /\
  exists iou, calculate_iou (mkBox 0 0 10 10) (mkBox 0 0 10 10) = inr iou /\ iou == 1.
Proof.
  assert (non_degenerate (mkBox 0 0 10 10)) as N by (split; simpl; lra).
  split; [exact N |].
  exact (calculate_iou_self (mkBox 0 0 10 10) N).
Defined.

(** ** Loops *)

Lemma for_each_app {A S : Type} (l1 l2 : list A) (body : A -> S -> py S) (s : S) :
  for_each (l1 ++ l2) body s =
  (s' <- for_each l1 body s ;; for_each l2 body s').
Proof.
  revert s. induction l1 as [| x l1 IH]; intros s; simpl; [reflexivity |].
  destruct (body x s) as [e | s1]; [reflexivity | apply IH].
Qed.

Lemma for_each_cons {A S : Type} (x : A) (l : list A) (body : A -> S -> py S)
      (s : S) :
  for_each (x :: l) body s =
  match body x s with
  | inl e => inl e
  | inr s' => for_each l body s'
  end.
Proof. reflexivity. Qed.

Lemma enumerate_from_cons {A : Type} (k : nat) (x : A) (l : list A) :
  enumerate_from k (x :: l) = (k, x) :: enumerate_from (S k) l.
Proof. reflexivity. Qed.

Lemma enumerate_from_snd {A : Type} (k : nat) (l : list A) :
  map snd (enumerate_from k l) = l.
Proof.
  revert k. induction l as [| x l IH]; intros k; [reflexivity |].
  rewrite enumerate_from_cons. simpl. now rewrite IH.
Qed.

Lemma enumerate_from_In {A : Type} (k : nat) (l : list A) (i : nat) (x : A) :
  In (i, x) (enumerate_from k l) ->
  (k <= i)%nat /\ nth_error l (i - k) = Some x.
Proof.
  revert k. induction l as [| y l IH]; intros k H; [destruct H |].
  rewrite enumerate_from_cons in H. destruct H as [H | H].
  - inversion H; subst. split; [lia |]. now rewrite Nat.sub_diag.
  - apply IH in H. destruct H as [L N]. split; [lia |].
    replace (i - k)%nat with (S (i - S k)) by lia. exact N.
Qed.

Lemma enumerate_In {A : Type} (l : list A) (i : nat) (x : A) :
  In (i, x) (enumerate l) -> nth_error l i = Some x.
Proof.
  intros H. apply enumerate_from_In in H. destruct H as [_ H].
  now rewrite Nat.sub_0_r in H.
Qed.

(** ** The matching loop *)

Section Matching.

Variable pred_box : Box.

(** The loop always returns; it leaves [(best_iou, gt_index)] alone when
    no box beats [best_iou], and otherwise ends on the first box that
    attains the highest IoU. *)
Lemma match_loop_spec (gt_boxes : list Box) :
  forall (k : nat) (best : Q) (gi : option nat),
  exists best' gi',
    for_each (enumerate_from k gt_boxes) (match_body pred_box) (best, gi)
      = inr (best', gi') /\
    best <= best' /\
    (forall m w, nth_error (ious gt_boxes pred_box) m = Some w -> w <= best') /\
    ((best' = best /\ gi' = gi) \/
     (exists m, gi' = Some (k + m)%nat /\
                nth_error (ious gt_boxes pred_box) m = Some best' /\
                best < best' /\
                forall m' w, (m' < m)%nat ->
                  nth_error (ious gt_boxes pred_box) m' = Some w -> w < best')).
Proof.
  induction gt_boxes as [| g rest IH]; intros k best gi.
  - exists best, gi. simpl. repeat split; try lra.
    + intros [| m] w H; discriminate H.
    + left; split; reflexivity.
  - rewrite enumerate_from_cons. simpl for_each. unfold match_body at 1.
    rewrite calculate_iou_returns. simpl.
    set (v0 := iou_value g pred_box).
    destruct (Qltb_spec best v0) as [Lt | Ge].
    + destruct (IH (S k) v0 (Some k)) as (b' & g' & Run & Le & All & Cases).
      exists b', g'. split; [exact Run |]. split; [lra |]. split.
      * intros [| m] w H; simpl in H.
        -- inversion H; subst. exact Le.
        -- apply (All m w H).
      * right. destruct Cases as [[Eb Eg] | (m & Eg & Nth & Lt' & Early)].
        -- exists 0%nat. subst b' g'. rewrite Nat.add_0_r.
           repeat split; try assumption; try reflexivity.
           intros m' w Hm. lia.
        -- exists (S m). rewrite <- Nat.add_succ_comm.
           repeat split; try assumption; try lra.
           intros [| m'] w Hm H; simpl in H.
           ++ inversion H; subst. exact Lt'.
           ++ apply (Early m' w); [lia | exact H].
    + destruct (IH (S k) best gi) as (b' & g' & Run & Le & All & Cases).
      exists b', g'. split; [exact Run |]. split; [exact Le |]. split.
      * intros [| m] w H; simpl in H.
        -- inversion H; subst. fold v0. lra.
        -- apply (All m w H).
      * destruct Cases as [[Eb Eg] | (m & Eg & Nth & Lt' & Early)].
        -- left; split; assumption.
        -- right. exists (S m). rewrite <- Nat.add_succ_comm.
           repeat split; try assumption.
           intros [| m'] w Hm H; simpl in H.
           ++ inversion H; subst. fold v0. lra.
           ++ apply (Early m' w); [lia | exact H].
Qed.

End Matching.

(** ** One detection *)

Lemma survives_iff (score : Q) :
  survives score = true <-> ~ score < confidence_threshold.
Proof.
  unfold survives. destruct (Qltb_spec score confidence_threshold); simpl;
    split; intros; try discriminate; try contradiction; auto.
Qed.

Section Detection.

Variable iou_threshold : Q.
Variables (gt_boxes : list Box) (gt_labels : list Z).
Variables (pred_boxes : list Box) (pred_labels : list Z).

Let body := detection_body iou_threshold gt_boxes gt_labels pred_boxes pred_labels.

(** [continue] *)
Lemma detection_body_filtered (i : nat) (score : Q) (st : Locals) :
  score < confidence_threshold -> body (i, score) st = inr st.
Proof.
  intros H. unfold body, detection_body.
  destruct (Qltb_spec score confidence_threshold); [reflexivity | contradiction].
Qed.

(** A surviving detection, once its matching loop has been run. *)
Lemma detection_body_matched (i : nat) (score : Q) (st : Locals)
      (pb : Box) (best : Q) (gi : option nat) :
  ~ score < confidence_threshold ->
  nth_error pred_boxes i = Some pb ->
  for_each (enumerate gt_boxes) (match_body (swap_axes pb)) (0, gt_index st)
    = inr (best, gi) ->
  body (i, score) st =
  if Qltb iou_threshold best then
    pl <- py_get pred_labels i ;;
    j <- read_local gi ;;
    gl <- py_get gt_labels j ;;
    if Z.eqb pl gl then
      ret (mkLocals (true_positives st + 1) (false_positives st)
             (false_negatives st) gi)
    else
      ret (mkLocals (true_positives st) (false_positives st + 1)
             (false_negatives st) gi)
  else
    ret (mkLocals (true_positives st) (false_positives st + 1)
           (false_negatives st) gi).
Proof.
  intros S B M. unfold body, detection_body.
  destruct (Qltb_spec score confidence_threshold); [contradiction |].
  unfold py_get at 1. rewrite B. simpl. rewrite M. reflexivity.
Qed.

(** Above a threshold that is not negative, the index the matching loop
    leaves in [gt_index] is the best match. *)
Lemma matching_finds_best (pb : Box) (gi0 : option nat) (j : nat) (v : Q) :
  0 <= iou_threshold ->
  best_match gt_boxes (swap_axes pb) j v ->
  iou_threshold < v ->
  for_each (enumerate gt_boxes) (match_body (swap_axes pb)) (0, gi0)
    = inr (v, Some j).
Proof.
  intros T (Nj & Max & First) Above.
  destruct (match_loop_spec (swap_axes pb) gt_boxes 0 0 gi0)
    as (b' & g' & Run & Le & All & Cases).
  unfold enumerate. rewrite Run.
  pose proof (All j v Nj) as Vle.
  destruct Cases as [[Eb Eg] | (m & Eg & Nth & Lt' & Early)]; [subst; lra |].
  pose proof (Max m b' Nth) as Ble.
  assert (m = j) as ->.
  { destruct (Nat.lt_trichotomy m j) as [L | [E | G]]; [| exact E |].
    - pose proof (First m b' L Nth). lra.
    - pose proof (Early j v G Nj). lra. }
  rewrite Nj in Nth. inversion Nth; subst. reflexivity.
Qed.

(** At or below the threshold everywhere, the loop ends at or below it. *)
Lemma matching_stays_below (pb : Box) (gi0 : option nat) :
  0 <= iou_threshold ->
  (forall k w, nth_error (ious gt_boxes (swap_axes pb)) k = Some w ->
               w <= iou_threshold) ->
  exists best gi,
    for_each (enumerate gt_boxes) (match_body (swap_axes pb)) (0, gi0)
      = inr (best, gi) /\ best <= iou_threshold.
Proof.
  intros T Below.
  destruct (match_loop_spec (swap_axes pb) gt_boxes 0 0 gi0)
    as (b' & g' & Run & Le & All & Cases).
  exists b', g'. split; [exact Run |].
  destruct Cases as [[Eb Eg] | (m & Eg & Nth & Lt' & Early)]; [subst; lra |].
  apply (Below m b' Nth).
Qed.

(** A surviving detection moves exactly one of the two counters, by one. *)
Lemma detection_body_survivor (i : nat) (score : Q) (st : Locals) :
  0 <= iou_threshold ->
  List.length gt_labels = List.length gt_boxes ->
  (i < List.length pred_boxes)%nat ->
  (i < List.length pred_labels)%nat ->
  ~ score < confidence_threshold ->
  exists st',
    body (i, score) st = inr st' /\
    false_negatives st' = false_negatives st /\
    ((true_positives st' = true_positives st + 1 /\
      false_positives st' = false_positives st)%Z \/
     (true_positives st' = true_positives st /\
      false_positives st' = false_positives st + 1)%Z).
Proof.
  intros T Lgt Lb Ll S.
  destruct (nth_error pred_boxes i) as [pb |] eqn:B;
    [| apply nth_error_None in B; lia].
  destruct (nth_error pred_labels i) as [pl |] eqn:P;
    [| apply nth_error_None in P; lia].
  destruct (match_loop_spec (swap_axes pb) gt_boxes 0 0 (gt_index st))
    as (b' & g' & Run & Le & All & Cases).
  rewrite (detection_body_matched i score st pb b' g' S B Run).
  destruct (Qltb_spec iou_threshold b') as [Above | Below].
  - destruct Cases as [[Eb Eg] | (m & Eg & Nth & Lt' & Early)]; [subst; lra |].
    assert (m < List.length gt_labels)%nat as Lm.
    { rewrite Lgt. unfold ious in Nth.
      rewrite <- (length_map (fun g => iou_value g (swap_axes pb))).
      apply nth_error_Some. congruence. }
    destruct (nth_error gt_labels m) as [gl |] eqn:G;
      [| apply nth_error_None in G; lia].
    subst g'. unfold py_get. rewrite P. simpl. rewrite G. simpl.
    destruct (Z.eqb pl gl); eexists; (split; [reflexivity |]); simpl;
      (split; [reflexivity |]); [left | right]; split; reflexivity.
  - eexists; split; [reflexivity |]; simpl; split; [reflexivity |].
    right; split; reflexivity.
Qed.

End Detection.

(** C4. A detection whose score is below the confidence threshold (the
    literal 0.5) leaves the locals, hence all three counters, unchanged;
    and a run of the detection loop is the run over the surviving
    detections alone. *)
Theorem low_confidence_is_skipped (iou_threshold : Q)
    (gt_boxes : list Box) (gt_labels : list Z)
    (pred_boxes : list Box) (pred_labels : list Z) :
  (forall i score st,
      score < confidence_threshold ->
      detection_body iou_threshold gt_boxes gt_labels pred_boxes pred_labels
        (i, score) st = inr st) /\
  (forall (l : list (nat * Q)) st,
      for_each l
        (detection_body iou_threshold gt_boxes gt_labels pred_boxes pred_labels)
        st =
      for_each (filter (fun d => survives (snd d)) l)
        (detection_body iou_threshold gt_boxes gt_labels pred_boxes pred_labels)
        st).
Proof.
  split.
  - intros i score st H. now apply detection_body_filtered.
  - induction l as [| [i score] l IH]; intros st; [reflexivity |].
    simpl filter. unfold survives at 1. simpl snd.
    destruct (Qltb_spec score confidence_threshold) as [Low | High];
      cbn [negb]; rewrite !for_each_cons.
    + rewrite detection_body_filtered by exact Low. apply IH.
    + destruct (detection_body _ _ _ _ _ _ _); [reflexivity | apply IH].
Qed.

Lemma low_confidence_is_skipped_witness :
  4 # 10 < confidence_threshold /\
  detection_body (1 # 2) [mkBox 0 0 1 1] [7%Z] [mkBox 0 0 1 1] [7%Z]
    (0%nat, 4 # 10) (mkLocals 3 2 1 None) = inr (mkLocals 3 2 1 None).
Proof.
  assert (4 # 10 < confidence_threshold) as Low by (vm_compute; reflexivity).
  split; [exact Low |].
  exact (proj1 (low_confidence_is_skipped (1 # 2) [mkBox 0 0 1 1] [7%Z]
                  [mkBox 0 0 1 1] [7%Z])
           0%nat (4 # 10) (mkLocals 3 2 1 None) Low).
Defined.

(** ** The counting loops *)

(** A relation between loop states that every iteration respects holds of
    a whole run, provided it is reflexive and transitive. *)
Lemma for_each_preserves {A S : Type} (R : S -> S -> Prop)
      (body : A -> S -> py S) :
  (forall s, R s s) ->
  (forall s1 s2 s3, R s1 s2 -> R s2 s3 -> R s1 s3) ->
  (forall x s s', body x s = inr s' -> R s s') ->
  forall l s s', for_each l body s = inr s' -> R s s'.
Proof.
  intros Rrefl Rtrans Step. induction l as [| x l IH]; intros s s' Run.
  - inversion Run; subst. apply Rrefl.
  - rewrite for_each_cons in Run. destruct (body x s) as [e | s1] eqn:B;
      [discriminate Run |].
    apply Rtrans with s1; [apply (Step x); exact B | apply IH; exact Run].
Qed.

Lemma counted_up_refl (st : Locals) : counted_up st st.
Proof. unfold counted_up. repeat split; lia. Qed.

Lemma counted_up_trans (s1 s2 s3 : Locals) :
  counted_up s1 s2 -> counted_up s2 s3 -> counted_up s1 s3.
Proof. unfold counted_up. intros (? & ? & ?) (? & ? & ?). repeat split; lia. Qed.

Lemma detection_body_counted_up (iou_threshold : Q)
      (gt_boxes : list Box) (gt_labels : list Z)
      (pred_boxes : list Box) (pred_labels : list Z)
      (d : nat * Q) (st st' : Locals) :
  detection_body iou_threshold gt_boxes gt_labels pred_boxes pred_labels d st
    = inr st' ->
  counted_up st st'.
Proof.
  destruct d as [i score]. unfold detection_body, counted_up.
  destruct (Qltb score confidence_threshold).
  { intros H; inversion H; subst. repeat split; lia. }
  destruct (py_get pred_boxes i) as [e | pb]; [discriminate |]. simpl.
  destruct (for_each _ _ _) as [e | [best gi]]; [discriminate |].
  destruct (Qltb iou_threshold best).
  - destruct (py_get pred_labels i) as [e | pl]; [discriminate |]. simpl.
    destruct gi as [j |]; [| discriminate]. simpl.
    destruct (py_get gt_labels j) as [e | gl]; [discriminate |]. simpl.
    destruct (Z.eqb pl gl); intros H; inversion H; subst; simpl;
      repeat split; lia.
  - intros H; inversion H; subst; simpl. repeat split; lia.
Qed.

Section Images.

Context {Image : Type}.
Variable detector : Image -> Detections.
Variable iou_threshold : Q.

(** Over one image the two detection counters never decrease. *)
Lemma image_body_monotone (example : Example Image) (st st' : Locals) :
  image_body detector iou_threshold example st = inr st' ->
  (true_positives st <= true_positives st')%Z /\
  (false_positives st <= false_positives st')%Z.
Proof.
  unfold image_body; cbv zeta.
  destruct (for_each _ _ _) as [e | s1] eqn:Run; [discriminate |].
  apply (for_each_preserves counted_up _ counted_up_refl counted_up_trans)
    in Run; [| intros x s s'; apply detection_body_counted_up].
  destruct Run as (TP & FP & _).
  intros H; inversion H; subst; simpl. split; assumption.
Qed.

(** The false-negative update subtracts the running total. *)
Lemma image_body_false_negatives (example : Example Image) (st st' : Locals) :
  image_body detector iou_threshold example st = inr st' ->
  false_negatives st' =
  (false_negatives st
   + (Z.of_nat (List.length (objects_bbox example)) - true_positives st'))%Z.
Proof.
  unfold image_body; cbv zeta.
  destruct (for_each _ _ _) as [e | s1] eqn:Run; [discriminate |].
  apply (for_each_preserves counted_up _ counted_up_refl counted_up_trans)
    in Run; [| intros x s s'; apply detection_body_counted_up].
  destruct Run as (_ & _ & FN).
  intros H; inversion H; subst; simpl. rewrite FN. reflexivity.
Qed.

Lemma images_monotone (l : list (Example Image)) (st st' : Locals) :
  for_each l (image_body detector iou_threshold) st = inr st' ->
  (true_positives st <= true_positives st')%Z /\
  (false_positives st <= false_positives st')%Z.
Proof.
  apply (for_each_preserves
           (fun s s' => (true_positives s <= true_positives s')%Z /\
                        (false_positives s <= false_positives s')%Z)).
  - intros s; split; lia.
  - intros s1 s2 s3 [? ?] [? ?]; split; lia.
  - intros x s s'. apply image_body_monotone.
Qed.

End Images.

(** The counters of a completed count are not negative. *)
Lemma count_detections_nonneg {Image : Type} (dataset : list (Example Image))
      (detector : Image -> Detections) (iou_threshold : Q) (num_samples : nat)
      (st : Locals) :
  count_detections dataset detector iou_threshold num_samples = inr st ->
  (0 <= true_positives st)%Z /\ (0 <= false_positives st)%Z.
Proof.
  intros Run. apply images_monotone in Run. exact Run.
Qed.

(** ** Runs on parallel arrays *)

Lemma survivors_cons (score : Q) (scores : list Q) :
  survivors (score :: scores) =
  ((if survives score then 1 else 0) + survivors scores)%nat.
Proof. unfold survivors. simpl. destruct (survives score); reflexivity. Qed.

Section Totality.

Context {Image : Type}.
Variable detector : Image -> Detections.
Variable iou_threshold : Q.
Hypothesis threshold_nonneg : 0 <= iou_threshold.

Lemma detections_loop_total
      (gt_boxes : list Box) (gt_labels : list Z)
      (pred_boxes : list Box) (pred_labels : list Z) :
  List.length gt_labels = List.length gt_boxes ->
  forall l : list (nat * Q),
  Forall (fun d => (fst d < List.length pred_boxes)%nat /\
                   (fst d < List.length pred_labels)%nat) l ->
  forall st, exists st',
    for_each l
      (detection_body iou_threshold gt_boxes gt_labels pred_boxes pred_labels)
      st = inr st' /\
    (true_positives st' + false_positives st' =
     true_positives st + false_positives st
     + Z.of_nat (survivors (map snd l)))%Z.
Proof.
  intros Lgt. induction l as [| [i score] l IH]; intros Idx st.
  - exists st. split; [reflexivity |]. unfold survivors; simpl. lia.
  - inversion Idx as [| ? ? [Lb Ll] Idx']; subst. simpl in Lb, Ll.
    rewrite for_each_cons. simpl map. rewrite survivors_cons.
    destruct (Qltb_spec score confidence_threshold) as [Low | High].
    + rewrite detection_body_filtered by exact Low.
      destruct (IH Idx' st) as (st' & Run & Sum).
      exists st'. split; [exact Run |].
      unfold survives at 1.
      destruct (Qltb_spec score confidence_threshold); [| contradiction].
      simpl. exact Sum.
    + destruct (detection_body_survivor iou_threshold gt_boxes gt_labels
                  pred_boxes pred_labels i score st threshold_nonneg
                  Lgt Lb Ll High) as (s1 & Step & _ & One).
      rewrite Step.
      destruct (IH Idx' s1) as (st' & Run & Sum).
      exists st'. split; [exact Run |].
      rewrite (proj2 (survives_iff score) High).
      rewrite Sum. destruct One as [[-> ->] | [-> ->]]; lia.
Qed.

(** The indices a prefix of [enumerate(pred_scores)] visits exist in the
    parallel arrays. *)
Lemma enumerate_prefix_in_range {A B C : Type}
      (scores : list A) (xs : list B) (ys : list C) (m : nat) :
  List.length xs = List.length scores ->
  List.length ys = List.length scores ->
  Forall (fun d : nat * A => (fst d < List.length xs)%nat /\
                             (fst d < List.length ys)%nat)
         (firstn m (enumerate scores)).
Proof.
  intros Lx Ly. apply Forall_forall. intros [i x] H.
  assert (In (i, x) (enumerate scores)) as H'.
  { rewrite <- (firstn_skipn m (enumerate scores)).
    apply in_or_app. left. exact H. }
  apply enumerate_In in H'.
  assert (i < List.length scores)%nat by (apply nth_error_Some; congruence).
  simpl. lia.
Qed.

Lemma enumerate_prefix_scores (scores : list Q) (m : nat) :
  map snd (firstn m (enumerate scores)) = firstn m scores.
Proof.
  rewrite <- firstn_map. unfold enumerate. now rewrite enumerate_from_snd.
Qed.

Lemma detections_prefix_total (example : Example Image) (m : nat) :
  parallel_arrays detector example ->
  forall st, exists st',
    for_each (firstn m (enumerate (detection_scores (detector (image example)))))
      (detection_body iou_threshold (objects_bbox example)
         (objects_label example) (detection_boxes (detector (image example)))
         (map py_int (detection_classes (detector (image example)))))
      st = inr st' /\
    (true_positives st' + false_positives st' =
     true_positives st + false_positives st
     + Z.of_nat (survivors
                   (firstn m (detection_scores (detector (image example))))))%Z.
Proof.
  intros (Lgt & Lb & Lc) st.
  rewrite <- enumerate_prefix_scores.
  apply detections_loop_total; [exact Lgt |].
  apply enumerate_prefix_in_range; [exact Lb |].
  rewrite length_map. exact Lc.
Qed.

Lemma image_body_total (example : Example Image) :
  parallel_arrays detector example ->
  forall st, exists st',
    image_body detector iou_threshold example st = inr st' /\
    (true_positives st' + false_positives st' =
     true_positives st + false_positives st
     + Z.of_nat (survivors (detection_scores (detector (image example)))))%Z.
Proof.
  intros P st.
  destruct (detections_prefix_total example
              (List.length (enumerate (detection_scores (detector (image example)))))
              P st) as (s1 & Run & Sum).
  rewrite firstn_all in Run.
  unfold image_body; cbv zeta. rewrite Run.
  eexists. split; [reflexivity |]. simpl. rewrite Sum.
  rewrite firstn_all2; [reflexivity |].
  unfold enumerate, enumerate_from. rewrite length_combine, length_seq. lia.
Qed.

Lemma images_total (l : list (Example Image)) :
  Forall (parallel_arrays detector) l ->
  forall st, exists st',
    for_each l (image_body detector iou_threshold) st = inr st' /\
    (true_positives st' + false_positives st' =
     true_positives st + false_positives st
     + Z.of_nat (list_sum
                   (map (fun example =>
                           survivors (detection_scores (detector (image example))))
                        l)))%Z.
Proof.
  induction l as [| example l IH]; intros P st.
  - exists st. split; [reflexivity |]. simpl. lia.
  - inversion P as [| ? ? Pe Pl]; subst.
    destruct (image_body_total example Pe st) as (s1 & Step & Sum1).
    destruct (IH Pl s1) as (st' & Run & Sum).
    exists st'. rewrite for_each_cons, Step. split; [exact Run |].
    simpl map. simpl list_sum. rewrite Sum, Sum1. lia.
Qed.

End Totality.

Lemma Forall_prefix {A : Type} (P : A -> Prop) (l : list A) (n : nat) :
  Forall P l -> Forall P (firstn n l).
Proof.
  intros H. apply Forall_forall. intros x Hx.
  rewrite Forall_forall in H. apply H.
  rewrite <- (firstn_skipn n l). apply in_or_app. left. exact Hx.
Qed.

(** C9, amended. Under an IoU threshold that is not negative and on
    parallel input arrays, every detection whose score is at least the
    confidence threshold completes its iteration and increments exactly one of
    [true_positives] and [false_positives], by exactly one; and at every
    point of the run (after [k] whole images and [m] detections of the
    next) the run has not raised and [true_positives + false_positives] is
    the number of surviving detections processed so far. *)
Theorem detections_counted_once {Image : Type}
    (dataset : list (Example Image)) (detector : Image -> Detections)
    (iou_threshold : Q) (num_samples : nat) :
  0 <= iou_threshold ->
  Forall (parallel_arrays detector) dataset ->
  (forall example i score st,
      In example (firstn num_samples dataset) ->
      nth_error (detection_scores (detector (image example))) i = Some score ->
      ~ score < confidence_threshold ->
      exists st',
        detection_body iou_threshold (objects_bbox example)
          (objects_label example) (detection_boxes (detector (image example)))
          (map py_int (detection_classes (detector (image example))))
          (i, score) st = inr st' /\
        ((true_positives st' = true_positives st + 1 /\
          false_positives st' = false_positives st)%Z \/
         (true_positives st' = true_positives st /\
          false_positives st' = false_positives st + 1)%Z)) /\
  (forall k m, exists st,
      locals_at dataset detector iou_threshold num_samples k m = inr st /\
      (true_positives st + false_positives st =
       Z.of_nat (survivors_at dataset detector num_samples k m))%Z).
Proof.
  intros T P.
  assert (Forall (parallel_arrays detector) (firstn num_samples dataset)) as PT
      by (apply Forall_prefix; exact P).
  split.
  - intros example i score st In_ex Nth High.
    rewrite Forall_forall in PT. destruct (PT example In_ex) as (Lgt & Lb & Lc).
    assert (i < List.length (detection_scores (detector (image example))))%nat
      as Li by (apply nth_error_Some; congruence).
    destruct (detection_body_survivor iou_threshold (objects_bbox example)
                (objects_label example)
                (detection_boxes (detector (image example)))
                (map py_int (detection_classes (detector (image example))))
                i score st T Lgt) as (st' & Run & _ & One); try assumption.
    + lia.
    + rewrite length_map. lia.
    + exists st'. split; assumption.
  - intros k m. unfold locals_at, survivors_at; cbv zeta.
    destruct (images_total detector iou_threshold T
                (firstn k (firstn num_samples dataset))
                (Forall_prefix _ _ k PT) initial_locals) as (s0 & Run0 & Sum0).
    rewrite Run0. simpl in Sum0.
    destruct (nth_error (firstn num_samples dataset) k) as [example |] eqn:Nth.
    + assert (parallel_arrays detector example) as Pe.
      { rewrite Forall_forall in PT. apply PT.
        apply nth_error_In with k. exact Nth. }
      destruct (detections_prefix_total detector iou_threshold T example m Pe s0)
        as (st & Run & Sum).
      exists st. split; [exact Run |]. rewrite Sum, Sum0. lia.
    + exists s0. split; [reflexivity |]. rewrite Sum0. lia.
Qed.

Lemma detections_counted_once_witness :
  0 <= 1 # 2 /\
  Forall (parallel_arrays sample_detector) [sample_example; sample_example] /\
  exists st,
    locals_at [sample_example; sample_example] sample_detector (1 # 2) 100 1 1
      = inr st /\
    (true_positives st + false_positives st = 2)%Z.
Proof.
  assert (0 <= 1 # 2) as T by (vm_compute; discriminate).
  assert (Forall (parallel_arrays sample_detector)
            [sample_example; sample_example]) as P
      by (repeat constructor).
  split; [exact T |]. split; [exact P |].
  exact (proj2 (detections_counted_once [sample_example; sample_example]
                  sample_detector (1 # 2) 100 T P) 1%nat 1%nat).
Defined.

(** ** False negatives, precision and recall *)

(** C1. On two images, each with one ground-truth box matched by one
    correct detection, the second image counts one true positive for its
    one box, yet [false_negatives] moves by -1 and not by 1 - 1 = 0: the
    update subtracts the running total of true positives. *)
Theorem false_negatives_second_image :
  exists st1 st2,
    image_body sample_detector (1 # 2) sample_example initial_locals = inr st1 /\
    image_body sample_detector (1 # 2) sample_example st1 = inr st2 /\
    List.length (objects_bbox sample_example) = 1%nat /\
    (true_positives st2 - true_positives st1 = 1)%Z /\
    (false_negatives st2 - false_negatives st1 = -1)%Z /\
    (false_negatives st2 - false_negatives st1 <>
     Z.of_nat (List.length (objects_bbox sample_example))
     - (true_positives st2 - true_positives st1))%Z.
Proof.
  exists (mkLocals 1 0 0 (Some 0%nat)), (mkLocals 2 0 (-1) (Some 0%nat)).
  repeat split; try reflexivity. vm_compute. discriminate.
Qed.

(** C10. There is a sequence of two images, each with one ground-truth box
    perfectly matched by one correctly labelled detection of score 0.9, on
    which the run reports a negative [False Negatives] and a recall above
    1: after the first image the locals hold TP = 1, FN = 0, after the
    second TP = 2, FN = 0 + (1 - 2) = -1. *)
Theorem false_negatives_go_negative :
  exists (example1 example2 : Example unit) (detector : unit -> Detections),
    perfectly_detected detector example1 /\
    perfectly_detected detector example2 /\
    locals_at [example1; example2] detector (1 # 2) 100 1 0
      = inr (mkLocals 1 0 0 (Some 0%nat)) /\
    locals_at [example1; example2] detector (1 # 2) 100 2 0
      = inr (mkLocals 2 0 (-1) (Some 0%nat)) /\
    exists r,
      evaluate_model_performance [example1; example2] detector (1 # 2) 100
        = inr r /\
      True_Positives r = 2%Z /\
      (False_Negatives r < 0)%Z /\
      1 < Recall r.
Proof.
  assert (perfectly_detected sample_detector sample_example) as PD.
  { exists unit_box, 7%Z, unit_box, (9 # 10), 7.
    repeat split; try reflexivity. vm_compute; discriminate. }
  exists sample_example, sample_example, sample_detector.
  split; [exact PD |]. split; [exact PD |].
  split; [reflexivity |]. split; [reflexivity |].
  eexists. split; [vm_compute; reflexivity |].
  repeat split; reflexivity.
Qed.

Lemma guarded_ratio_returns (a b : Z) :
  guarded_ratio a b =
  inr (if Z.ltb 0 b then inject_Z a / inject_Z b else 0).
Proof.
  unfold guarded_ratio, py_div. destruct (Z.ltb_spec 0 b) as [Pos | Le];
    [| reflexivity].
  destruct (Qeq_bool_spec (inject_Z b) 0) as [E | N]; [| reflexivity].
  exfalso. unfold Qeq in E. simpl in E. lia.
Qed.

(** The closing arithmetic never raises. *)
Lemma final_report_returns (st : Locals) :
  final_report st =
  inr (mkReport (true_positives st) (false_positives st) (false_negatives st)
         (if Z.ltb 0 (true_positives st + false_positives st)
          then inject_Z (true_positives st)
               / inject_Z (true_positives st + false_positives st)
          else 0)
         (if Z.ltb 0 (true_positives st + false_negatives st)
          then inject_Z (true_positives st)
               / inject_Z (true_positives st + false_negatives st)
          else 0)).
Proof. unfold final_report. rewrite !guarded_ratio_returns. reflexivity. Qed.

(** C3, as stated, fails: on four perfectly detected images the run
    reports TP = 4 and FN = -6, a denominator of -2, and a recall of 0
    where TP / (TP + FN) is -2. *)
Lemma recall_is_not_the_ratio :
  exists r,
    evaluate_model_performance
      [sample_example; sample_example; sample_example; sample_example]
      sample_detector (1 # 2) 100 = inr r /\
    (True_Positives r + False_Negatives r <> 0)%Z /\
    Recall r == 0 /\
    ~ Recall r ==
      inject_Z (True_Positives r)
      / inject_Z (True_Positives r + False_Negatives r).
Proof.
  eexists. split; [vm_compute; reflexivity |]. simpl.
  split; [discriminate |]. split; [reflexivity |].
  vm_compute. discriminate.
Qed.

(** C3, amended. Whenever the counting loops of a run complete, the run
    raises nothing afterwards and reports the three counters together with
    precision = TP / (TP + FP), or 0 when TP + FP is 0, and
    recall = TP / (TP + FN) when TP + FN is positive, or 0 when TP + FN is
    zero or negative. *)
Theorem precision_recall_guarded {Image : Type}
    (dataset : list (Example Image)) (detector : Image -> Detections)
    (iou_threshold : Q) (num_samples : nat) (st : Locals) :
  count_detections dataset detector iou_threshold num_samples = inr st ->
  exists r,
    evaluate_model_performance dataset detector iou_threshold num_samples
      = inr r /\
    True_Positives r = true_positives st /\
    False_Positives r = false_positives st /\
    False_Negatives r = false_negatives st /\
    ((True_Positives r + False_Positives r <> 0)%Z ->
     Precision r =
     inject_Z (True_Positives r)
     / inject_Z (True_Positives r + False_Positives r)) /\
    ((True_Positives r + False_Positives r = 0)%Z -> Precision r = 0) /\
    ((0 < True_Positives r + False_Negatives r)%Z ->
     Recall r =
     inject_Z (True_Positives r)
     / inject_Z (True_Positives r + False_Negatives r)) /\
    ((True_Positives r + False_Negatives r <= 0)%Z -> Recall r = 0).
Proof.
  intros Run.
  destruct (count_detections_nonneg dataset detector iou_threshold num_samples
              st Run) as [TP0 FP0].
  unfold evaluate_model_performance. rewrite Run. simpl.
  rewrite final_report_returns. eexists. split; [reflexivity |]. simpl.
  repeat split; try reflexivity.
  - intros N. destruct (Z.ltb_spec 0 (true_positives st + false_positives st));
      [reflexivity | lia].
  - intros E. rewrite E. reflexivity.
  - intros Pos. destruct (Z.ltb_spec 0 (true_positives st + false_negatives st));
      [reflexivity | lia].
  - intros Le. destruct (Z.ltb_spec 0 (true_positives st + false_negatives st));
      [lia | reflexivity].
Qed.

Lemma precision_recall_guarded_witness :
  count_detections [sample_example; sample_example] sample_detector (1 # 2) 100
    = inr (mkLocals 2 0 (-1) (Some 0%nat)) /\
  exists r,
    evaluate_model_performance [sample_example; sample_example]
      sample_detector (1 # 2) 100 = inr r /\
    True_Positives r = 2%Z /\ False_Positives r = 0%Z /\
    False_Negatives r = (-1)%Z.
Proof.
  assert (count_detections [sample_example; sample_example] sample_detector
            (1 # 2) 100 = inr (mkLocals 2 0 (-1) (Some 0%nat))) as Run
      by reflexivity.
  split; [exact Run |].
  destruct (precision_recall_guarded [sample_example; sample_example]
              sample_detector (1 # 2) 100 _ Run)
    as (r & Ev & TP & FP & FN & _).
  exists r. split; [exact Ev |]. split; [exact TP |]. split; [exact FP | exact FN].
Defined.

(** ** Class ids outside the label list *)

(** C8, as stated, fails: for a single detection of class id 25 against the
    twenty known names, [process_uploaded_image] prints a line for it
    (labelled UNKNOWN) rather than leaving it out, and
    [run_detector_and_visualize] raises on the unassigned [label]. *)
Lemma unknown_class_is_not_excluded :
  (Z.of_nat (List.length voc_class_names) <= py_int 25)%Z /\
  process_uploaded_image voc_class_names sample_unknown
    = inr [mkLabelled "UNKNOWN" (9 # 10)] /\
  run_detector_and_visualize voc_class_names sample_unknown
    = inl UnboundLocalError.
Proof.
  split; [vm_compute; discriminate |]. split; reflexivity.
Qed.

(** After a detection of a known class, [run_detector_and_visualize] draws
    a later out-of-range detection under the label still held by [label]. *)
Lemma visualize_reuses_previous_label :
  run_detector_and_visualize voc_class_names sample_known_then_unknown
    = inr [mkLabelled "bicycle" (9 # 10); mkLabelled "bicycle" (8 # 10)].
Proof. reflexivity. Qed.

(** C8, amended. In the printing loop of [process_uploaded_image], every
    detection with a score above 0.5 whose class id is at least
    [len(class_names)] completes its iteration without raising and adds one
    line to the report, labelled UNKNOWN. *)
Theorem unknown_class_is_reported (class_names : list string)
    (detections : Detections) (i : nat) (score c : Q)
    (printed : list Labelled) :
  confidence_threshold < score ->
  nth_error (detection_classes detections) i = Some c ->
  (Z.of_nat (List.length class_names) <= py_int c)%Z ->
  report_body class_names detections (i, score) printed
    = inr (printed ++ [mkLabelled "UNKNOWN" score]).
Proof.
  intros High Nth Out. unfold report_body.
  destruct (Qltb_spec confidence_threshold score); [| contradiction].
  unfold py_get. rewrite Nth. simpl.
  destruct (Z.ltb_spec (py_int c) (Z.of_nat (List.length class_names)));
    [lia | reflexivity].
Qed.

Lemma unknown_class_is_reported_witness :
  confidence_threshold < 9 # 10 /\
  nth_error (detection_classes sample_unknown) 0 = Some 25 /\
  (Z.of_nat (List.length voc_class_names) <= py_int 25)%Z /\
  report_body voc_class_names sample_unknown (0%nat, 9 # 10) []
    = inr [mkLabelled "UNKNOWN" (9 # 10)].
Proof.
  assert (confidence_threshold < 9 # 10) as High by (vm_compute; reflexivity).
  assert (Z.of_nat (List.length voc_class_names) <= py_int 25)%Z as Out
      by (vm_compute; discriminate).
  split; [exact High |]. split; [reflexivity |]. split; [exact Out |].
  exact (unknown_class_is_reported voc_class_names sample_unknown 0 (9 # 10)
           25 [] High eq_refl Out).
Defined.

(** ** The observation points follow the run *)

Lemma nth_error_enumerate_from {A : Type} (l : list A) :
  forall k m x,
    nth_error l m = Some x ->
    nth_error (enumerate_from k l) m = Some ((k + m)%nat, x).
Proof.
  induction l as [| y l IH]; intros k [| m] x H; try discriminate H.
  - inversion H; subst. rewrite enumerate_from_cons, Nat.add_0_r. reflexivity.
  - rewrite enumerate_from_cons. simpl. rewrite (IH (S k) m x H).
    now rewrite Nat.add_succ_comm.
Qed.

Lemma firstn_snoc {A : Type} (l : list A) :
  forall m x, nth_error l m = Some x -> firstn (S m) l = firstn m l ++ [x].
Proof.
  induction l as [| y l IH]; intros [| m] x H; try discriminate H.
  - inversion H; subst. reflexivity.
  - simpl in H. change (y :: firstn (S m) l = y :: firstn m l ++ [x]).
    now rewrite (IH m x H).
Qed.

(** One more detection of the current image is one more iteration of the
    detection loop. *)
Lemma locals_at_next_detection {Image : Type} (dataset : list (Example Image))
      (detector : Image -> Detections) (iou_threshold : Q) (num_samples : nat)
      (k m : nat) (example : Example Image) (score : Q) :
  nth_error (firstn num_samples dataset) k = Some example ->
  nth_error (detection_scores (detector (image example))) m = Some score ->
  locals_at dataset detector iou_threshold num_samples k (S m) =
  (st <- locals_at dataset detector iou_threshold num_samples k m ;;
   detection_body iou_threshold (objects_bbox example) (objects_label example)
     (detection_boxes (detector (image example)))
     (map py_int (detection_classes (detector (image example))))
     (m, score) st).
Proof.
  intros Ex Sc. unfold locals_at; cbv zeta. rewrite Ex.
  rewrite (firstn_snoc _ m (m, score))
    by (apply (nth_error_enumerate_from _ 0 m score Sc)).
  destruct (for_each (firstn k _) _ _) as [e | s0]; [reflexivity |].
  cbn [bind Monad_either]. rewrite for_each_app.
  destruct (for_each (firstn m _) _ s0) as [e | s1]; [reflexivity |].
  cbn [bind Monad_either for_each].
  destruct (detection_body _ _ _ _ _ _ _); reflexivity.
Qed.

(** Past the last image the observation is the result of the counting
    loops. *)
Lemma locals_at_end {Image : Type} (dataset : list (Example Image))
      (detector : Image -> Detections) (iou_threshold : Q)
      (num_samples m : nat) :
  locals_at dataset detector iou_threshold num_samples
    (List.length (firstn num_samples dataset)) m =
  count_detections dataset detector iou_threshold num_samples.
Proof.
  unfold locals_at, count_detections; cbv zeta.
  rewrite firstn_all.
  rewrite (proj2 (nth_error_None _ _) (Nat.le_refl _)).
  destruct (for_each _ _ _); reflexivity.
Qed.

(** ** A negative IoU threshold *)

(** Below zero the threshold lets a detection through that no ground-truth
    box has been selected for; on a first such detection [gt_index] is read
    before any assignment. *)
Lemma negative_threshold_reads_unbound_index :
  evaluate_model_performance [mkExample tt [] []] sample_detector (-1 # 2) 100
    = inl UnboundLocalError.
Proof. reflexivity. Qed.

(** * Further properties *)

(** ** More on [calculate_iou] *)

(** The returned value only depends on the two areas it is computed from. *)
Lemma iou_value_ext (a b c d : Box) :
  intersection_area a b == intersection_area c d ->
  union_area a b == union_area c d ->
  iou_value a b == iou_value c d.
Proof.
  intros EI EU. unfold iou_value.
  destruct (Qeq_bool_spec (union_area a b) 0) as [U1 | U1];
    destruct (Qeq_bool_spec (union_area c d) 0) as [U2 | U2];
    try reflexivity; try lra.
  rewrite EI, EU. reflexivity.
Qed.

Lemma intersection_area_sym (a b : Box) :
  intersection_area a b == intersection_area b a.
Proof.
  unfold intersection_area; cbv zeta.
  assert (forall x y, py_max x y == py_max y x) as Mx
      by (intros x y; split_max_min; lra).
  assert (forall x y, py_min x y == py_min y x) as Mn
      by (intros x y; split_max_min; lra).
  assert (forall x y, x == y -> py_max 0 x == py_max 0 y) as M0
      by (intros x y E; split_max_min; lra).
  rewrite (M0 (py_min (ymax a) (ymax b) - py_max (ymin a) (ymin b))
              (py_min (ymax b) (ymax a) - py_max (ymin b) (ymin a)))
    by (rewrite (Mx (ymin a)), (Mn (ymax a)); reflexivity).
  rewrite (M0 (py_min (xmax a) (xmax b) - py_max (xmin a) (xmin b))
              (py_min (xmax b) (xmax a) - py_max (xmin b) (xmin a)))
    by (rewrite (Mx (xmin a)), (Mn (xmax a)); reflexivity).
  reflexivity.
Qed.

Lemma iou_value_sym (a b : Box) : iou_value a b == iou_value b a.
Proof.
  apply iou_value_ext; [apply intersection_area_sym |].
  unfold union_area. rewrite (intersection_area_sym a b). lra.
Qed.

(** X1. [calculate_iou] is symmetric: both orders of the arguments return,
    and return the same number. *)
Theorem calculate_iou_symmetric (box1 box2 : Box) :
  exists iou iou',
    calculate_iou box1 box2 = inr iou /\
    calculate_iou box2 box1 = inr iou' /\
    iou == iou'.
Proof.
  exists (iou_value box1 box2), (iou_value box2 box1).
  split; [apply calculate_iou_returns |].
  split; [apply calculate_iou_returns | apply iou_value_sym].
Qed.

(** ** The axis swap of the evaluator *)

Lemma swap_axes_involutive (b : Box) : swap_axes (swap_axes b) = b.
Proof. destruct b; reflexivity. Qed.

Lemma iou_value_swap_both (a b : Box) :
  iou_value (swap_axes a) (swap_axes b) == iou_value a b.
Proof.
  assert (intersection_area (swap_axes a) (swap_axes b) == intersection_area a b)
    as EI by (unfold intersection_area, swap_axes; simpl; apply Qmult_comm).
  apply iou_value_ext; [exact EI |].
  unfold union_area. rewrite EI. unfold box_area, swap_axes; simpl. lra.
Qed.

(** X4. Exchanging the axes of both boxes does not change the IoU; hence
    the IoU the evaluator computes, of a ground-truth box against the
    axis-swapped prediction, is the IoU of the axis-swapped ground-truth box
    against the prediction as the detector returned it. *)
Theorem calculate_iou_swap_axes (gt_box pred_box : Box) :
  exists iou iou',
    calculate_iou gt_box (swap_axes pred_box) = inr iou /\
    calculate_iou (swap_axes gt_box) pred_box = inr iou' /\
    iou == iou'.
Proof.
  exists (iou_value gt_box (swap_axes pred_box)),
         (iou_value (swap_axes gt_box) pred_box).
  split; [apply calculate_iou_returns |].
  split; [apply calculate_iou_returns |].
  rewrite <- (iou_value_swap_both gt_box (swap_axes pred_box)).
  rewrite swap_axes_involutive. reflexivity.
Qed.

(** ** Bounds on the report *)

(** A run that reports has completed its counting loops, and the report
    is computed from their locals. *)
Lemma evaluate_inversion {Image : Type} (dataset : list (Example Image))
      (detector : Image -> Detections) (iou_threshold : Q) (num_samples : nat)
      (r : Report) :
  evaluate_model_performance dataset detector iou_threshold num_samples = inr r ->
  exists st,
    count_detections dataset detector iou_threshold num_samples = inr st /\
    final_report st = inr r.
Proof.
  unfold evaluate_model_performance.
  destruct (count_detections _ _ _ _) as [e | st]; [discriminate |].
  intros H. exists st. split; [reflexivity | exact H].
Qed.

Lemma ratio_bounds (a b : Z) :
  (0 <= a)%Z -> (0 < a + b)%Z ->
  0 <= inject_Z a / inject_Z (a + b) /\
  ((0 <= b)%Z -> inject_Z a / inject_Z (a + b) <= 1).
Proof.
  intros A Pos.
  assert (0 < inject_Z (a + b)) as QPos
      by (change 0 with (inject_Z 0); rewrite <- Zlt_Qlt; exact Pos).
  assert (0 <= inject_Z a) as QA
      by (change 0 with (inject_Z 0); rewrite <- Zle_Qle; exact A).
  split.
  - apply Qle_shift_div_l; [exact QPos | lra].
  - intros B. apply Qle_shift_div_r; [exact QPos |].
    rewrite Qmult_1_l, <- Zle_Qle. lia.
Qed.

(** X6. Every report has a precision between 0 and 1 and a recall that is
    not negative; the recall is at most 1 whenever the reported false
    negatives are not negative. *)
Theorem precision_recall_bounds {Image : Type}
    (dataset : list (Example Image)) (detector : Image -> Detections)
    (iou_threshold : Q) (num_samples : nat) (r : Report) :
  evaluate_model_performance dataset detector iou_threshold num_samples = inr r ->
  0 <= Precision r /\ Precision r <= 1 /\
  0 <= Recall r /\
  ((0 <= False_Negatives r)%Z -> Recall r <= 1).
Proof.
  intros Ev. destruct (evaluate_inversion _ _ _ _ _ Ev) as (st & Run & Fin).
  destruct (count_detections_nonneg _ _ _ _ _ Run) as [TP0 FP0].
  rewrite final_report_returns in Fin. inversion Fin; subst r; simpl.
  destruct (Z.ltb_spec 0 (true_positives st + false_positives st)) as [P | P];
    destruct (Z.ltb_spec 0 (true_positives st + false_negatives st)) as [R | R].
  - destruct (ratio_bounds _ _ TP0 P) as [P0 P1].
    destruct (ratio_bounds _ _ TP0 R) as [R0 R1].
    repeat split; auto.
  - destruct (ratio_bounds _ _ TP0 P) as [P0 P1].
    repeat split; auto; intros; lra.
  - destruct (ratio_bounds _ _ TP0 R) as [R0 R1].
    repeat split; auto; lra.
  - repeat split; intros; lra.
Qed.

Lemma precision_recall_bounds_witness :
  evaluate_model_performance [sample_example; sample_example] sample_detector
    (1 # 2) 100 = inr (mkReport 2 0 (-1) (2 # 2) 2) /\
  0 <= 2 # 2 /\ 2 # 2 <= 1 /\ 0 <= 2.
Proof.
  assert (evaluate_model_performance [sample_example; sample_example]
            sample_detector (1 # 2) 100 = inr (mkReport 2 0 (-1) (2 # 2) 2))
    as Ev by reflexivity.
  split; [exact Ev |].
  destruct (precision_recall_bounds _ _ _ _ _ Ev) as (P0 & P1 & R0 & _).
  split; [exact P0 |]. split; [exact P1 | exact R0].
Defined.

(** ** The false-negative counter *)

Lemma ground_truth_total_cons {Image : Type} (example : Example Image)
      (l : list (Example Image)) :
  ground_truth_total (example :: l) =
  (Z.of_nat (List.length (objects_bbox example)) + ground_truth_total l)%Z.
Proof. unfold ground_truth_total. simpl. apply Nat2Z.inj_add. Qed.

Lemma images_false_negatives_bounds {Image : Type}
      (detector : Image -> Detections) (iou_threshold : Q)
      (l : list (Example Image)) :
  forall st st',
    for_each l (image_body detector iou_threshold) st = inr st' ->
    (false_negatives st + ground_truth_total l
     - Z.of_nat (List.length l) * true_positives st' <= false_negatives st')%Z /\
    (false_negatives st' <=
     false_negatives st + ground_truth_total l
     - Z.of_nat (List.length l) * true_positives st)%Z.
Proof.
  induction l as [| example l IH]; intros st st' Run.
  - inversion Run; subst. unfold ground_truth_total; simpl. lia.
  - rewrite for_each_cons in Run.
    destruct (image_body detector iou_threshold example st) as [e | s1] eqn:Step;
      [discriminate Run |].
    pose proof (image_body_false_negatives _ _ _ _ _ Step) as FN1.
    destruct (image_body_monotone _ _ _ _ _ Step) as [TP1 _].
    destruct (images_monotone _ _ _ _ _ Run) as [TP2 _].
    destruct (IH s1 st' Run) as [Lo Hi].
    rewrite ground_truth_total_cons.
    change (List.length (example :: l)) with (S (List.length l)).
    rewrite Nat2Z.inj_succ.
    pose proof (Nat2Z.is_nonneg (List.length l)).
    split; nia.
Qed.

(** X7. Over a whole run the reported false negatives never exceed the
    number of ground-truth boxes of the images processed, and fall short of
    it by at most the reported true positives times the number of images;
    on a single image they are exactly the boxes minus the true
    positives. *)
Theorem false_negatives_bounds {Image : Type}
    (dataset : list (Example Image)) (detector : Image -> Detections)
    (iou_threshold : Q) (num_samples : nat) (r : Report) :
  evaluate_model_performance dataset detector iou_threshold num_samples = inr r ->
  (ground_truth_total (firstn num_samples dataset)
   - Z.of_nat (List.length (firstn num_samples dataset)) * True_Positives r
   <= False_Negatives r)%Z /\
  (False_Negatives r <= ground_truth_total (firstn num_samples dataset))%Z /\
  (List.length (firstn num_samples dataset) = 1%nat ->
   False_Negatives r =
   (ground_truth_total (firstn num_samples dataset) - True_Positives r)%Z).
Proof.
  intros Ev. destruct (evaluate_inversion _ _ _ _ _ Ev) as (st & Run & Fin).
  rewrite final_report_returns in Fin. inversion Fin; subst r; simpl.
  destruct (images_false_negatives_bounds _ _ _ _ _ Run) as [Lo Hi].
  simpl in Lo, Hi.
  split; [lia |]. split; [lia |].
  intros One. rewrite One in Lo, Hi.
  destruct (count_detections_nonneg _ _ _ _ _ Run) as [TP0 _].
  destruct (firstn num_samples dataset) as [| example [| ? ?]] eqn:Taken;
    try discriminate One.
  unfold count_detections in Run. rewrite Taken, for_each_cons in Run.
  destruct (image_body detector iou_threshold example initial_locals)
    as [e | s1] eqn:Step; [discriminate Run |].
  inversion Run; subst s1.
  pose proof (image_body_false_negatives _ _ _ _ _ Step) as FN1.
  simpl in FN1. rewrite ground_truth_total_cons.
  unfold ground_truth_total; simpl. lia.
Qed.

Lemma false_negatives_bounds_witness :
  evaluate_model_performance [sample_example; sample_example] sample_detector
    (1 # 2) 100 = inr (mkReport 2 0 (-1) (2 # 2) 2) /\
  (2 - 2 * 2 <= -1)%Z /\ (-1 <= 2)%Z.
Proof.
  assert (evaluate_model_performance [sample_example; sample_example]
            sample_detector (1 # 2) 100 = inr (mkReport 2 0 (-1) (2 # 2) 2))
    as Ev by reflexivity.
  split; [exact Ev |].
  destruct (false_negatives_bounds _ _ _ _ _ Ev) as (Lo & Hi & _).
  split; [exact Lo | exact Hi].
Defined.

(** X8. Whenever an image is processed to its end, [false_negatives] moves
    by the number of its ground-truth boxes minus the running total of true
    positives after that image: the boxes minus the true positives counted
    on this image, minus further all true positives counted before it. *)
Theorem image_false_negatives_update {Image : Type}
    (detector : Image -> Detections) (iou_threshold : Q)
    (example : Example Image) (st st' : Locals) :
  image_body detector iou_threshold example st = inr st' ->
  false_negatives st' =
  (false_negatives st
   + (Z.of_nat (List.length (objects_bbox example)) - true_positives st'))%Z /\
  (false_negatives st' - false_negatives st =
   (Z.of_nat (List.length (objects_bbox example))
    - (true_positives st' - true_positives st))
   - true_positives st)%Z /\
  (true_positives st <= true_positives st')%Z.
Proof.
  intros Step.
  pose proof (image_body_false_negatives _ _ _ _ _ Step) as FN1.
  destruct (image_body_monotone _ _ _ _ _ Step) as [TP1 _].
  split; [exact FN1 |]. split; [lia | exact TP1].
Qed.

Lemma image_false_negatives_update_witness :
  image_body sample_detector (1 # 2) sample_example (mkLocals 1 0 0 (Some 0%nat))
    = inr (mkLocals 2 0 (-1) (Some 0%nat)) /\
  (-1 = 0 + (Z.of_nat 1 - 2))%Z.
Proof.
  assert (image_body sample_detector (1 # 2) sample_example
            (mkLocals 1 0 0 (Some 0%nat)) = inr (mkLocals 2 0 (-1) (Some 0%nat)))
    as Step by reflexivity.
  split; [exact Step |].
  exact (proj1 (image_false_negatives_update _ _ _ _ _ Step)).
Defined.

(** ** The index left over from earlier detections *)

(** Two runs of the matching loop that differ only in the index they start
    with end on the same IoU, and on the same index unless no box beat the
    starting IoU. *)
Lemma match_loop_start_index (pred_box : Box) (gt_boxes : list Box) :
  forall (k : nat) (best : Q) (gi1 gi2 : option nat),
  exists b g1 g2,
    for_each (enumerate_from k gt_boxes) (match_body pred_box) (best, gi1)
      = inr (b, g1) /\
    for_each (enumerate_from k gt_boxes) (match_body pred_box) (best, gi2)
      = inr (b, g2) /\
    (g1 = g2 \/ b = best).
Proof.
  induction gt_boxes as [| g rest IH]; intros k best gi1 gi2.
  - exists best, gi1, gi2. repeat split; auto.
  - rewrite enumerate_from_cons, !for_each_cons. unfold match_body at 1 3.
    rewrite calculate_iou_returns.
    cbn [bind Monad_either].
    destruct (Qltb (best) (iou_value g pred_box)); cbn [ret Monad_either].
    + destruct (match_loop_spec pred_box rest (S k) (iou_value g pred_box)
                  (Some k)) as (b & g' & Run & _).
      exists b, g', g'. repeat split; auto.
    + apply IH.
Qed.

(** X9. Under an IoU threshold that is not negative, the index that
    [gt_index] still holds from an earlier detection or image has no
    influence on how a detection is counted: started from any other index,
    the iteration ends with the same three counters, or raises the same
    exception. *)
Theorem leftover_index_is_not_used (iou_threshold : Q)
    (gt_boxes : list Box) (gt_labels : list Z)
    (pred_boxes : list Box) (pred_labels : list Z)
    (d : nat * Q) (st : Locals) (other : option nat) :
  0 <= iou_threshold ->
  (forall st',
      detection_body iou_threshold gt_boxes gt_labels pred_boxes pred_labels
        d st = inr st' ->
      exists st'',
        detection_body iou_threshold gt_boxes gt_labels pred_boxes pred_labels
          d (mkLocals (true_positives st) (false_positives st)
               (false_negatives st) other) = inr st'' /\
        true_positives st'' = true_positives st' /\
        false_positives st'' = false_positives st' /\
        false_negatives st'' = false_negatives st') /\
  (forall e,
      detection_body iou_threshold gt_boxes gt_labels pred_boxes pred_labels
        d st = inl e ->
      detection_body iou_threshold gt_boxes gt_labels pred_boxes pred_labels
        d (mkLocals (true_positives st) (false_positives st)
             (false_negatives st) other) = inl e).
Proof.
  intros T. destruct d as [i score]. unfold detection_body.
  destruct (Qltb score confidence_threshold).
  { split.
    - intros st' H. inversion H; subst. eexists. split; [reflexivity |].
      simpl. repeat split; reflexivity.
    - intros e H. discriminate H. }
  destruct (py_get pred_boxes i) as [e | pb];
    [split; [intros ? H; discriminate H | intros ? H; exact H] |].
  cbn [bind Monad_either]. simpl gt_index.
  destruct (match_loop_start_index (swap_axes pb) gt_boxes 0 0
              (gt_index st) other) as (b & g1 & g2 & Run1 & Run2 & Same).
  unfold enumerate. rewrite Run1, Run2.
  destruct (Qltb_spec iou_threshold b) as [Above | Below].
  - destruct Same as [-> | ->]; [| lra].
    simpl.
    destruct (py_get pred_labels i) as [e | pl];
      [split; [intros ? H; discriminate H | intros ? H; exact H] |].
    destruct g2 as [j |];
      [| split; [intros ? H; discriminate H | intros ? H; exact H]].
    simpl.
    destruct (py_get gt_labels j) as [e | gl];
      [split; [intros ? H; discriminate H | intros ? H; exact H] |].
    simpl. destruct (Z.eqb pl gl); (split; [| intros ? H; discriminate H]);
      intros st' H; inversion H; subst; eexists; (split; [reflexivity |]);
      simpl; repeat split; reflexivity.
  - split; [| intros ? H; discriminate H].
    intros st' H; inversion H; subst. eexists. split; [reflexivity |].
    simpl. repeat split; reflexivity.
Qed.

Lemma leftover_index_is_not_used_witness :
  0 <= 1 # 2 /\
  exists st'',
    detection_body (1 # 2) [unit_box] [7%Z] [unit_box] [7%Z] (0%nat, 9 # 10)
      (mkLocals 0 0 0 (Some 5%nat)) = inr st'' /\
    true_positives st'' = 1%Z /\ false_positives st'' = 0%Z.
Proof.
  assert (0 <= 1 # 2) as T by (vm_compute; discriminate).
  split; [exact T |].
  destruct (proj1 (leftover_index_is_not_used (1 # 2) [unit_box] [7%Z]
                     [unit_box] [7%Z] (0%nat, 9 # 10) initial_locals
                     (Some 5%nat) T)
              (mkLocals 1 0 0 (Some 0%nat)) eq_refl)
    as (st'' & Run & TP & FP & _).
  exists st''. split; [exact Run |]. split; [exact TP | exact FP].
Defined.

(** ** Images without ground truth, images without detections *)

Lemma detection_body_no_ground_truth (iou_threshold : Q) (gt_labels : list Z)
      (pred_boxes : list Box) (pred_labels : list Z)
      (d : nat * Q) (st st' : Locals) :
  0 <= iou_threshold ->
  detection_body iou_threshold [] gt_labels pred_boxes pred_labels d st
    = inr st' ->
  true_positives st' = true_positives st.
Proof.
  intros T. destruct d as [i score]. unfold detection_body.
  destruct (Qltb score confidence_threshold);
    [intros H; inversion H; reflexivity |].
  destruct (py_get pred_boxes i) as [e | pb]; [discriminate |]. simpl.
  destruct (Qltb_spec iou_threshold 0) as [Neg | _]; [lra |].
  intros H; inversion H; reflexivity.
Qed.

(** X10. On an image without ground-truth boxes, under a threshold that is
    not negative and with parallel detector arrays, every surviving
    detection is a false positive: the image completes, leaves
    [true_positives] alone, adds the number of surviving detections to
    [false_positives], and lowers [false_negatives] by the true positives
    counted so far. *)
Theorem image_without_ground_truth {Image : Type}
    (detector : Image -> Detections) (iou_threshold : Q)
    (example : Example Image) (st : Locals) :
  0 <= iou_threshold ->
  objects_bbox example = [] ->
  parallel_arrays detector example ->
  exists st',
    image_body detector iou_threshold example st = inr st' /\
    true_positives st' = true_positives st /\
    false_positives st' =
    (false_positives st
     + Z.of_nat (survivors (detection_scores (detector (image example)))))%Z /\
    false_negatives st' = (false_negatives st - true_positives st)%Z.
Proof.
  intros T Empty P.
  destruct (image_body_total detector iou_threshold T example P st)
    as (st' & Step & Sum).
  exists st'. split; [exact Step |].
  pose proof (image_body_false_negatives _ _ _ _ _ Step) as FN.
  assert (true_positives st' = true_positives st) as TP.
  { unfold image_body in Step; cbv zeta in Step. rewrite Empty in Step.
    destruct (for_each _ _ _) as [e | s1] eqn:Run; [discriminate Step |].
    apply (for_each_preserves
             (fun s s' => true_positives s' = true_positives s)) in Run.
    - inversion Step; subst; simpl. exact Run.
    - reflexivity.
    - intros s2 s3 s4 E1 E2. congruence.
    - intros x s s'. apply detection_body_no_ground_truth. exact T. }
  rewrite Empty in FN. simpl in FN.
  split; [exact TP |]. split; lia.
Qed.

Lemma image_without_ground_truth_witness :
  0 <= 1 # 2 /\
  objects_bbox (mkExample tt [] []) = [] /\
  parallel_arrays sample_detector (mkExample tt [] []) /\
  exists st',
    image_body sample_detector (1 # 2) (mkExample tt [] [])
      (mkLocals 3 1 2 None) = inr st' /\
    true_positives st' = 3%Z /\
    false_positives st' = (1 + 1)%Z /\
    false_negatives st' = (2 - 3)%Z.
Proof.
  assert (0 <= 1 # 2) as T by (vm_compute; discriminate).
  assert (parallel_arrays sample_detector (mkExample tt [] [])) as P
      by (repeat split).
  split; [exact T |]. split; [reflexivity |]. split; [exact P |].
  exact (image_without_ground_truth sample_detector (1 # 2)
           (mkExample tt [] []) (mkLocals 3 1 2 None) T eq_refl P).
Defined.

Lemma detections_all_filtered (iou_threshold : Q)
      (gt_boxes : list Box) (gt_labels : list Z)
      (pred_boxes : list Box) (pred_labels : list Z)
      (l : list (nat * Q)) (st : Locals) :
  Forall (fun d => snd d < confidence_threshold) l ->
  for_each l
    (detection_body iou_threshold gt_boxes gt_labels pred_boxes pred_labels) st
  = inr st.
Proof.
  induction 1 as [| [i score] l Low _ IH]; [reflexivity |].
  rewrite for_each_cons, detection_body_filtered by exact Low. exact IH.
Qed.

Lemma enumerate_Forall {A : Type} (P : A -> Prop) (l : list A) :
  (forall x, In x l -> P x) ->
  Forall (fun d : nat * A => P (snd d)) (enumerate l).
Proof.
  intros H. apply Forall_forall. intros [i x] Hin. simpl.
  apply H. apply nth_error_In with i. apply enumerate_In. exact Hin.
Qed.

(** X11. When no detection of an image reaches the confidence threshold
    (in particular when the detector returns none), the image is processed
    without touching the detector's boxes or classes: it cannot raise, the
    two detection counters keep their values, and [false_negatives] grows by
    the number of ground-truth boxes minus the running true positives. *)
Theorem image_without_survivors {Image : Type}
    (detector : Image -> Detections) (iou_threshold : Q)
    (example : Example Image) (st : Locals) :
  (forall score, In score (detection_scores (detector (image example))) ->
                 score < confidence_threshold) ->
  image_body detector iou_threshold example st =
  inr (mkLocals (true_positives st) (false_positives st)
         (false_negatives st
          + (Z.of_nat (List.length (objects_bbox example)) - true_positives st))
         (gt_index st)).
Proof.
  intros Low. unfold image_body; cbv zeta.
  rewrite detections_all_filtered; [reflexivity |].
  apply (enumerate_Forall (fun score => score < confidence_threshold)).
  exact Low.
Qed.

Lemma image_without_survivors_witness :
  (forall score, In score [4 # 10; 1 # 10] -> score < confidence_threshold) /\
  image_body (fun _ : unit => mkDetections [] [4 # 10; 1 # 10] [])
    (1 # 2) sample_example (mkLocals 1 0 0 None)
  = inr (mkLocals 1 0 (0 + (Z.of_nat 1 - 1)) None).
Proof.
  assert (forall score, In score [4 # 10; 1 # 10] ->
                        score < confidence_threshold) as Low.
  { intros score [E | [E | []]]; subst; vm_compute; reflexivity. }
  split; [exact Low |].
  exact (image_without_survivors
           (fun _ : unit => mkDetections [] [4 # 10; 1 # 10] [])
           (1 # 2) sample_example (mkLocals 1 0 0 None) Low).
Defined.

(** ** Degenerate runs *)

Lemma image_without_survivors_aux {Image : Type}
      (detector : Image -> Detections) (iou_threshold : Q)
      (example : Example Image) :
  objects_bbox example = [] ->
  (forall score, In score (detection_scores (detector (image example))) ->
                 score < confidence_threshold) ->
  image_body detector iou_threshold example initial_locals = inr initial_locals.
Proof.
  intros Empty Low. unfold image_body; cbv zeta.
  rewrite detections_all_filtered.
  - rewrite Empty. reflexivity.
  - apply (enumerate_Forall (fun score => score < confidence_threshold)).
    exact Low.
Qed.

Lemma images_nothing_to_count {Image : Type}
      (detector : Image -> Detections) (iou_threshold : Q)
      (l : list (Example Image)) :
  Forall (fun example =>
            objects_bbox example = [] /\
            forall score,
              In score (detection_scores (detector (image example))) ->
              score < confidence_threshold) l ->
  for_each l (image_body detector iou_threshold) initial_locals
  = inr initial_locals.
Proof.
  induction 1 as [| example l [Empty Low] _ IH]; [reflexivity |].
  rewrite for_each_cons, image_without_survivors_aux; [exact IH | | exact Low].
  exact Empty.
Qed.

(** X12. A run in which no processed image has a ground-truth box or a
    detection reaching the confidence threshold (among them the run over an
    empty dataset and the run with [num_samples = 0]) reports
    TP = FP = FN = 0, precision 0 and recall 0. *)
Theorem nothing_to_count_report {Image : Type}
    (dataset : list (Example Image)) (detector : Image -> Detections)
    (iou_threshold : Q) (num_samples : nat) :
  Forall (fun example =>
            objects_bbox example = [] /\
            forall score,
              In score (detection_scores (detector (image example))) ->
              score < confidence_threshold)
         (firstn num_samples dataset) ->
  evaluate_model_performance dataset detector iou_threshold num_samples
  = inr (mkReport 0 0 0 0 0).
Proof.
  intros H. unfold evaluate_model_performance, count_detections.
  rewrite images_nothing_to_count by exact H. reflexivity.
Qed.

Lemma nothing_to_count_report_witness :
  Forall (fun example : Example unit =>
            objects_bbox example = [] /\
            forall score,
              In score (detection_scores
                          ((fun _ : unit => mkDetections [unit_box] [4 # 10] [7])
                             (image example))) ->
              score < confidence_threshold)
         (firstn 100 [mkExample tt [] []; mkExample tt [] []]) /\
  evaluate_model_performance [mkExample tt [] []; mkExample tt [] []]
    (fun _ : unit => mkDetections [unit_box] [4 # 10] [7]) (1 # 2) 100
  = inr (mkReport 0 0 0 0 0).
Proof.
  assert (Forall (fun example : Example unit =>
                    objects_bbox example = [] /\
                    forall score,
                      In score (detection_scores
                                  ((fun _ : unit =>
                                      mkDetections [unit_box] [4 # 10] [7])
                                     (image example))) ->
                      score < confidence_threshold)
                 (firstn 100 [mkExample tt [] []; mkExample tt [] []])) as H.
  { repeat constructor; intros score [E | []]; subst; vm_compute; reflexivity. }
  split; [exact H |].
  exact (nothing_to_count_report [mkExample tt [] []; mkExample tt [] []]
           (fun _ : unit => mkDetections [unit_box] [4 # 10] [7]) (1 # 2) 100 H).
Defined.

(** ** The printing loop of [process_uploaded_image] *)

Lemma py_index_in_range {A : Type} (l : list A) (i : Z) :
  (- Z.of_nat (List.length l) <= i < Z.of_nat (List.length l))%Z ->
  exists x, py_index l i = inr x /\ In x l.
Proof.
  intros [Lo Hi]. unfold py_index; cbv zeta.
  assert (forall k, (k < List.length l)%nat ->
                    exists x, py_get l k = inr x /\ In x l) as Get.
  { intros k Hk. unfold py_get.
    destruct (nth_error l k) as [x |] eqn:N.
    - exists x. split; [reflexivity | apply nth_error_In with k; exact N].
    - apply nth_error_None in N. lia. }
  destruct (Z.ltb_spec i 0) as [Neg | Pos].
  - destruct (Z.leb_spec (- Z.of_nat (List.length l)) i); [| lia].
    apply Get. lia.
  - apply Get. lia.
Qed.

Lemma report_loop_spec (class_names : list string) (detections : Detections)
      (l : list (nat * Q)) :
  Forall (fun d =>
            exists c,
              nth_error (detection_classes detections) (fst d) = Some c /\
              (- Z.of_nat (List.length class_names) <= py_int c)%Z) l ->
  forall printed, exists out,
    for_each l (report_body class_names detections) printed
      = inr (printed ++ out) /\
    map shown_score out = filter (Qltb confidence_threshold) (map snd l) /\
    Forall (fun line => In (shown_label line) class_names \/
                        shown_label line = "UNKNOWN"%string) out.
Proof.
  induction 1 as [| [i score] l (c & Nth & Lo) _ IH]; intros printed.
  - exists []. rewrite app_nil_r. repeat split; constructor.
  - rewrite for_each_cons. unfold report_body at 1. simpl map. simpl filter.
    simpl in Nth.
    destruct (Qltb confidence_threshold score).
    + unfold py_get. rewrite Nth. cbn [bind ret Monad_either].
      destruct (Z.ltb_spec (py_int c) (Z.of_nat (List.length class_names)))
        as [Known | Unknown].
      * destruct (py_index_in_range class_names (py_int c) (conj Lo Known))
          as (name & Idx & Hin).
        rewrite Idx. cbn [bind ret Monad_either].
        destruct (IH (printed ++ [mkLabelled name score])) as (out & Run & Sc & Lb).
        exists (mkLabelled name score :: out).
        rewrite Run, <- app_assoc. split; [reflexivity |].
        split; [simpl; now rewrite Sc |].
        constructor; [left; exact Hin | exact Lb].
      * cbn [bind ret Monad_either].
        destruct (IH (printed ++ [mkLabelled "UNKNOWN" score]))
          as (out & Run & Sc & Lb).
        exists (mkLabelled "UNKNOWN" score :: out).
        rewrite Run, <- app_assoc. split; [reflexivity |].
        split; [simpl; now rewrite Sc |].
        constructor; [right; reflexivity | exact Lb].
    + cbn [ret Monad_either]. apply IH.
Qed.

(** X14. When the detector returns one class per score and no class id
    lies below [-len(class_names)], [process_uploaded_image] completes and
    prints exactly one line per detection whose score is above 0.5, in
    order and with that score; every line carries either one of the class
    names or UNKNOWN. *)
Theorem process_uploaded_image_report (class_names : list string)
    (detections : Detections) :
  List.length (detection_classes detections)
  = List.length (detection_scores detections) ->
  (forall c, In c (detection_classes detections) ->
             (- Z.of_nat (List.length class_names) <= py_int c)%Z) ->
  exists printed,
    process_uploaded_image class_names detections = inr printed /\
    map shown_score printed
    = filter (Qltb confidence_threshold) (detection_scores detections) /\
    Forall (fun line => In (shown_label line) class_names \/
                        shown_label line = "UNKNOWN"%string) printed.
Proof.
  intros Len Lo.
  destruct (report_loop_spec class_names detections
              (enumerate (detection_scores detections))) with (printed := @nil Labelled)
    as (out & Run & Sc & Lb).
  - apply Forall_forall. intros [i score] Hin. simpl.
    apply enumerate_In in Hin.
    assert (i < List.length (detection_classes detections))%nat as Li
        by (rewrite Len; apply nth_error_Some; congruence).
    destruct (nth_error (detection_classes detections) i) as [c |] eqn:N;
      [| apply nth_error_None in N; lia].
    exists c. split; [reflexivity |]. apply Lo. apply nth_error_In with i. exact N.
  - exists out. unfold process_uploaded_image. rewrite Run. simpl.
    split; [reflexivity |]. split; [| exact Lb].
    rewrite Sc. unfold enumerate. now rewrite enumerate_from_snd.
Qed.

Lemma process_uploaded_image_report_witness :
  List.length (detection_classes sample_known_then_unknown)
  = List.length (detection_scores sample_known_then_unknown) /\
  (forall c, In c (detection_classes sample_known_then_unknown) ->
             (- Z.of_nat (List.length voc_class_names) <= py_int c)%Z) /\
  exists printed,
    process_uploaded_image voc_class_names sample_known_then_unknown
      = inr printed /\
    map shown_score printed = [9 # 10; 8 # 10].
Proof.
  assert (forall c, In c (detection_classes sample_known_then_unknown) ->
                    (- Z.of_nat (List.length voc_class_names) <= py_int c)%Z)
    as Lo.
  { intros c [E | [E | []]]; subst; vm_compute; discriminate. }
  split; [reflexivity |]. split; [exact Lo |].
  destruct (process_uploaded_image_report voc_class_names
              sample_known_then_unknown eq_refl Lo) as (printed & Run & Sc & _).
  exists printed. split; [exact Run | exact Sc].
Defined.

(** X15. A class id below zero passes the test
    [class_id < len(class_names)] and is used as a Python index: from
    [-len(class_names)] up to -1 the line carries the name counted from the
    end of the list, and below [-len(class_names)] the lookup raises
    [IndexError]. *)
Theorem negative_class_id_indexes_from_the_end (class_names : list string)
    (detections : Detections) (i : nat) (score c : Q)
    (printed : list Labelled) :
  confidence_threshold < score ->
  nth_error (detection_classes detections) i = Some c ->
  (py_int c < 0)%Z ->
  ((py_int c < - Z.of_nat (List.length class_names))%Z ->
   report_body class_names detections (i, score) printed = inl IndexError) /\
  (forall name,
      nth_error class_names
        (Z.to_nat (Z.of_nat (List.length class_names) + py_int c)) = Some name ->
      (- Z.of_nat (List.length class_names) <= py_int c)%Z ->
      report_body class_names detections (i, score) printed
      = inr (printed ++ [mkLabelled name score])).
Proof.
  intros High Nth Neg.
  assert (report_body class_names detections (i, score) printed =
          match py_index class_names (py_int c) with
          | inl e => inl e
          | inr label => inr (printed ++ [mkLabelled label score])
          end) as Body.
  { unfold report_body.
    destruct (Qltb_spec confidence_threshold score); [| contradiction].
    unfold py_get. rewrite Nth. cbn [bind ret Monad_either].
    destruct (Z.ltb_spec (py_int c) (Z.of_nat (List.length class_names)));
      [reflexivity | lia]. }
  rewrite Body. unfold py_index; cbv zeta.
  destruct (Z.ltb_spec (py_int c) 0); [| lia].
  split.
  - intros Low.
    destruct (Z.leb_spec (- Z.of_nat (List.length class_names)) (py_int c));
      [lia | reflexivity].
  - intros name Name Lo.
    destruct (Z.leb_spec (- Z.of_nat (List.length class_names)) (py_int c));
      [| lia].
    unfold py_get. rewrite Name. reflexivity.
Qed.

Lemma negative_class_id_indexes_from_the_end_witness :
  confidence_threshold < 9 # 10 /\
  (py_int (-1) < 0)%Z /\
  report_body voc_class_names (mkDetections [unit_box] [9 # 10] [-1])
    (0%nat, 9 # 10) [] = inr [mkLabelled "tvmonitor" (9 # 10)].
Proof.
  assert (confidence_threshold < 9 # 10) as High by (vm_compute; reflexivity).
  assert (py_int (-1) < 0)%Z as Neg by (vm_compute; reflexivity).
  split; [exact High |]. split; [exact Neg |].
  apply (proj2 (negative_class_id_indexes_from_the_end voc_class_names
                  (mkDetections [unit_box] [9 # 10] [-1]) 0 (9 # 10) (-1) []
                  High eq_refl Neg)).
  - reflexivity.
  - vm_compute; discriminate.
Defined.

(** ** The labelling loop of [run_detector_and_visualize] *)

(** One iteration on a detection above 0.5 whose box and class exist. *)
Lemma visualize_body_drawn (class_names : list string) (result : Detections)
      (i : nat) (score c : Q) (b : Box)
      (label : option string) (drawn : list Labelled) :
  confidence_threshold < score ->
  nth_error (detection_boxes result) i = Some b ->
  nth_error (detection_classes result) i = Some c ->
  visualize_body class_names result (i, score) (label, drawn) =
  if Z.ltb (py_int c) (Z.of_nat (List.length class_names)) then
    match py_index class_names (py_int c) with
    | inl e => inl e
    | inr name => inr (Some name, drawn ++ [mkLabelled name score])
    end
  else
    match label with
    | Some name => inr (label, drawn ++ [mkLabelled name score])
    | None => inl UnboundLocalError
    end.
Proof.
  intros High Box Class. unfold visualize_body.
  destruct (Qltb_spec confidence_threshold score); [| contradiction].
  unfold py_get. rewrite Box, Class. cbn [bind ret Monad_either].
  destruct (Z.ltb (py_int c) (Z.of_nat (List.length class_names))).
  - destruct (py_index class_names (py_int c)); reflexivity.
  - destruct label; reflexivity.
Qed.

Lemma visualize_body_skipped (class_names : list string) (result : Detections)
      (i : nat) (score : Q) (s : option string * list Labelled) :
  ~ confidence_threshold < score ->
  visualize_body class_names result (i, score) s = inr s.
Proof.
  intros Low. unfold visualize_body. destruct s as [label drawn].
  destruct (Qltb_spec confidence_threshold score); [contradiction | reflexivity].
Qed.

(** X16. In [run_detector_and_visualize], a detection above 0.5 whose
    class id is at least [len(class_names)] is drawn all the same, under
    the label the previous iterations left in [label]; when no earlier
    iteration assigned [label], the iteration raises
    [UnboundLocalError]. *)
Theorem unknown_class_drawn_with_leftover_label (class_names : list string)
    (result : Detections) (i : nat) (score c : Q) (b : Box)
    (drawn : list Labelled) :
  confidence_threshold < score ->
  nth_error (detection_boxes result) i = Some b ->
  nth_error (detection_classes result) i = Some c ->
  (Z.of_nat (List.length class_names) <= py_int c)%Z ->
  (forall previous,
      visualize_body class_names result (i, score) (Some previous, drawn)
      = inr (Some previous, drawn ++ [mkLabelled previous score])) /\
  visualize_body class_names result (i, score) (None, drawn)
  = inl UnboundLocalError.
Proof.
  intros High Box Class Out. split; [intros previous |];
    rewrite (visualize_body_drawn class_names result i score c b _ drawn
               High Box Class);
    destruct (Z.ltb_spec (py_int c) (Z.of_nat (List.length class_names)));
    try lia; reflexivity.
Qed.

Lemma unknown_class_drawn_with_leftover_label_witness :
  confidence_threshold < 8 # 10 /\
  (Z.of_nat (List.length voc_class_names) <= py_int 25)%Z /\
  visualize_body voc_class_names sample_known_then_unknown (1%nat, 8 # 10)
    (Some "bicycle"%string, [])
  = inr (Some "bicycle"%string, [mkLabelled "bicycle" (8 # 10)]).
Proof.
  assert (confidence_threshold < 8 # 10) as High by (vm_compute; reflexivity).
  assert (Z.of_nat (List.length voc_class_names) <= py_int 25)%Z as Out
      by (vm_compute; discriminate).
  split; [exact High |]. split; [exact Out |].
  exact (proj1 (unknown_class_drawn_with_leftover_label voc_class_names
                  sample_known_then_unknown 1 (8 # 10) 25 unit_box []
                  High eq_refl eq_refl Out) "bicycle"%string).
Defined.

Lemma enumerate_from_prefix_In {A : Type} (l : list A) :
  forall k m j x,
    In (j, x) (firstn m (enumerate_from k l)) ->
    (k <= j < k + m)%nat /\ nth_error l (j - k) = Some x.
Proof.
  induction l as [| y l IH]; intros k m j x H.
  - destruct m; destruct H.
  - destruct m as [| m]; [destruct H |].
    rewrite enumerate_from_cons in H. simpl in H. destruct H as [H | H].
    + inversion H; subst. split; [lia |]. now rewrite Nat.sub_diag.
    + apply IH in H. destruct H as [R N]. split; [lia |].
      replace (j - k)%nat with (S (j - S k)) by lia. exact N.
Qed.

Lemma enumerate_split {A : Type} (l : list A) (i : nat) (x : A) :
  nth_error l i = Some x ->
  enumerate l =
  firstn i (enumerate l) ++ (i, x) :: skipn (S i) (enumerate l).
Proof.
  intros N.
  rewrite <- (firstn_skipn (S i) (enumerate l)) at 1.
  rewrite (firstn_snoc _ i (i, x))
    by (apply (nth_error_enumerate_from l 0 i x N)).
  rewrite <- app_assoc. reflexivity.
Qed.

(** X17. If the first detection above 0.5 has a class id of at least
    [len(class_names)], [run_detector_and_visualize] raises
    [UnboundLocalError], whatever follows. *)
Theorem first_unknown_class_raises (class_names : list string)
    (result : Detections) (i : nat) (score c : Q) (b : Box) :
  nth_error (detection_scores result) i = Some score ->
  confidence_threshold < score ->
  (forall j s, (j < i)%nat -> nth_error (detection_scores result) j = Some s ->
               ~ confidence_threshold < s) ->
  nth_error (detection_boxes result) i = Some b ->
  nth_error (detection_classes result) i = Some c ->
  (Z.of_nat (List.length class_names) <= py_int c)%Z ->
  run_detector_and_visualize class_names result = inl UnboundLocalError.
Proof.
  intros Sc High Before Box Class Out. unfold run_detector_and_visualize.
  rewrite (enumerate_split _ i score Sc), for_each_app.
  assert (for_each (firstn i (enumerate (detection_scores result)))
            (visualize_body class_names result) (None, [])
          = inr (None, [])) as Prefix.
  { assert (forall l' s,
               Forall (fun d : nat * Q => ~ confidence_threshold < snd d) l' ->
               for_each l' (visualize_body class_names result) s = inr s) as Skip.
    { induction 1 as [| [j sc] l' Low _ IH]; [reflexivity |].
      rewrite for_each_cons, visualize_body_skipped by exact Low. exact IH. }
    apply Skip. apply Forall_forall. intros [j sc] Hin. simpl.
    apply enumerate_from_prefix_In in Hin. destruct Hin as [R N].
    rewrite Nat.sub_0_r in N. apply (Before j sc); [lia | exact N]. }
  rewrite Prefix. cbn [bind Monad_either]. rewrite for_each_cons.
  rewrite (visualize_body_drawn class_names result i score c b None []
             High Box Class).
  destruct (Z.ltb_spec (py_int c) (Z.of_nat (List.length class_names)));
    [lia | reflexivity].
Qed.

Lemma first_unknown_class_raises_witness :
  confidence_threshold < 9 # 10 /\
  (Z.of_nat (List.length voc_class_names) <= py_int 25)%Z /\
  run_detector_and_visualize voc_class_names
    (mkDetections [unit_box; unit_box] [3 # 10; 9 # 10] [1; 25])
  = inl UnboundLocalError.
Proof.
  assert (confidence_threshold < 9 # 10) as High by (vm_compute; reflexivity).
  assert (Z.of_nat (List.length voc_class_names) <= py_int 25)%Z as Out
      by (vm_compute; discriminate).
  split; [exact High |]. split; [exact Out |].
  apply (first_unknown_class_raises voc_class_names
           (mkDetections [unit_box; unit_box] [3 # 10; 9 # 10] [1; 25])
           1 (9 # 10) 25 unit_box eq_refl High); try reflexivity; try exact Out.
  intros [| j] s Lt N; [| lia]. simpl in N. inversion N; subst.
  vm_compute. discriminate.
Defined.

Lemma labelling_loops_agree (class_names : list string) (result : Detections)
      (l : list (nat * Q)) :
  Forall (fun d =>
            (fst d < List.length (detection_boxes result))%nat /\
            (confidence_threshold < snd d ->
             forall c, nth_error (detection_classes result) (fst d) = Some c ->
                       (py_int c < Z.of_nat (List.length class_names))%Z)) l ->
  forall label printed,
    match for_each l (report_body class_names result) printed with
    | inl e =>
        for_each l (visualize_body class_names result) (label, printed) = inl e
    | inr out =>
        exists label',
          for_each l (visualize_body class_names result) (label, printed)
          = inr (label', out)
    end.
Proof.
  induction 1 as [| [i score] l [Li Known] _ IH]; intros label printed.
  - exists label. reflexivity.
  - simpl in Li, Known. rewrite !for_each_cons.
    destruct (Qltb_spec confidence_threshold score) as [High | Low].
    + destruct (nth_error (detection_boxes result) i) as [b |] eqn:Box;
        [| apply nth_error_None in Box; lia].
      unfold report_body at 1.
      destruct (Qltb_spec confidence_threshold score); [| contradiction].
      destruct (nth_error (detection_classes result) i) as [c |] eqn:Class.
      * rewrite (visualize_body_drawn class_names result i score c b label
                   printed High Box Class).
        unfold py_get. rewrite Class. cbn [bind ret Monad_either].
        destruct (Z.ltb_spec (py_int c) (Z.of_nat (List.length class_names)))
          as [_ | Unknown]; [| specialize (Known High c eq_refl); lia].
        destruct (py_index class_names (py_int c)) as [e | name];
          [reflexivity |].
        apply IH.
      * unfold visualize_body.
        destruct (Qltb_spec confidence_threshold score); [| contradiction].
        unfold py_get. rewrite Box, Class. reflexivity.
    + rewrite visualize_body_skipped by exact Low.
      unfold report_body at 1.
      destruct (Qltb_spec confidence_threshold score); [contradiction |].
      apply IH.
Qed.

(** X18. When the detector returns one box per score and every detection
    above 0.5 has a class id below [len(class_names)], the texts
    [run_detector_and_visualize] draws are the lines
    [process_uploaded_image] prints, and either both complete or both raise
    the same exception. *)
Theorem known_classes_labelled_alike (class_names : list string)
    (result : Detections) :
  List.length (detection_boxes result) = List.length (detection_scores result) ->
  (forall i score c,
      nth_error (detection_scores result) i = Some score ->
      confidence_threshold < score ->
      nth_error (detection_classes result) i = Some c ->
      (py_int c < Z.of_nat (List.length class_names))%Z) ->
  run_detector_and_visualize class_names result
  = process_uploaded_image class_names result.
Proof.
  intros Len Known.
  unfold run_detector_and_visualize, process_uploaded_image.
  pose proof (labelling_loops_agree class_names result
                (enumerate (detection_scores result))) as Agree.
  assert (Forall
            (fun d : nat * Q =>
               (fst d < List.length (detection_boxes result))%nat /\
               (confidence_threshold < snd d ->
                forall c, nth_error (detection_classes result) (fst d) = Some c ->
                          (py_int c < Z.of_nat (List.length class_names))%Z))
            (enumerate (detection_scores result))) as F.
  { apply Forall_forall. intros [i score] Hin. apply enumerate_In in Hin.
    simpl. split.
    - rewrite Len. apply nth_error_Some. congruence.
    - intros High c Class. apply (Known i score c Hin High Class). }
  specialize (Agree F None []).
  destruct (for_each (enumerate (detection_scores result))
              (report_body class_names result) []) as [e | out].
  - rewrite Agree. reflexivity.
  - destruct Agree as (label' & ->). reflexivity.
Qed.

Lemma known_classes_labelled_alike_witness :
  (forall i score c,
      nth_error [9 # 10; 3 # 10] i = Some score ->
      confidence_threshold < score ->
      nth_error [1; 25] i = Some c ->
      (py_int c < Z.of_nat (List.length voc_class_names))%Z) /\
  run_detector_and_visualize voc_class_names
    (mkDetections [unit_box; unit_box] [9 # 10; 3 # 10] [1; 25])
  = process_uploaded_image voc_class_names
      (mkDetections [unit_box; unit_box] [9 # 10; 3 # 10] [1; 25]).
Proof.
  assert (forall i score c,
             nth_error [9 # 10; 3 # 10] i = Some score ->
             confidence_threshold < score ->
             nth_error [1; 25] i = Some c ->
             (py_int c < Z.of_nat (List.length voc_class_names))%Z) as Known.
  { intros [| [| i]] score c S High C; simpl in S, C.
    - inversion C; subst. vm_compute. reflexivity.
    - inversion S; subst. vm_compute in High. discriminate High.
    - destruct i; discriminate S. }
  split; [exact Known |].
  exact (known_classes_labelled_alike voc_class_names
           (mkDetections [unit_box; unit_box] [9 # 10; 3 # 10] [1; 25])
           eq_refl Known).
Defined.

(** ** The confidence boundary *)

(** X19. A detection whose score is exactly 0.5 is counted by the
    evaluator, whose filter is [score < 0.5], but is neither printed by
    [process_uploaded_image] nor drawn by [run_detector_and_visualize],
    whose filter is [score > 0.5]. *)
Theorem score_at_the_boundary (iou_threshold : Q)
    (gt_boxes : list Box) (gt_labels : list Z)
    (pred_boxes : list Box) (pred_labels : list Z)
    (class_names : list string) (detections : Detections)
    (i : nat) (score : Q) (st : Locals)
    (printed : list Labelled) (s : option string * list Labelled) :
  score == confidence_threshold ->
  0 <= iou_threshold ->
  List.length gt_labels = List.length gt_boxes ->
  (i < List.length pred_boxes)%nat ->
  (i < List.length pred_labels)%nat ->
  (exists st',
      detection_body iou_threshold gt_boxes gt_labels pred_boxes pred_labels
        (i, score) st = inr st' /\
      (true_positives st' + false_positives st' =
       true_positives st + false_positives st + 1)%Z) /\
  report_body class_names detections (i, score) printed = inr printed /\
  visualize_body class_names detections (i, score) s = inr s.
Proof.
  intros E T Lgt Lb Ll.
  assert (~ score < confidence_threshold) as NotBelow by lra.
  assert (~ confidence_threshold < score) as NotAbove by lra.
  split; [| split].
  - destruct (detection_body_survivor iou_threshold gt_boxes gt_labels
                pred_boxes pred_labels i score st T Lgt Lb Ll NotBelow)
      as (st' & Run & _ & One).
    exists st'. split; [exact Run |].
    destruct One as [[-> ->] | [-> ->]]; lia.
  - unfold report_body.
    destruct (Qltb_spec confidence_threshold score); [contradiction | reflexivity].
  - apply visualize_body_skipped. exact NotAbove.
Qed.

Lemma score_at_the_boundary_witness :
  5 # 10 == confidence_threshold /\ 0 <= 1 # 2 /\
  (exists st',
      detection_body (1 # 2) [unit_box] [7%Z] [unit_box] [7%Z]
        (0%nat, 5 # 10) initial_locals = inr st' /\
      (true_positives st' + false_positives st' = 0 + 0 + 1)%Z) /\
  report_body voc_class_names sample_unknown (0%nat, 5 # 10) [] = inr [].
Proof.
  assert (5 # 10 == confidence_threshold) as E by (vm_compute; reflexivity).
  assert (0 <= 1 # 2) as T by (vm_compute; discriminate).
  split; [exact E |]. split; [exact T |].
  destruct (score_at_the_boundary (1 # 2) [unit_box] [7%Z] [unit_box] [7%Z]
              voc_class_names sample_unknown 0 (5 # 10) initial_locals []
              (None, []) E T eq_refl (Nat.lt_0_succ 0) (Nat.lt_0_succ 0))
    as (Counted & Printed & _).
  split; [exact Counted | exact Printed].
Defined.

(** * [calculate_iou] on floating-point numbers *)




(** * The evaluator on the IoU values as returned *)

Section ReturnedIoU.

Variable iou_of : Box -> Box -> py Q.

(** With [calculate_iou] for [iou_of] the definitions are those of the
    first part. *)
Lemma detection_body_with_calculate_iou (iou_threshold : Q)
      (gt_boxes : list Box) (gt_labels : list Z)
      (pred_boxes : list Box) (pred_labels : list Z)
      (d : nat * Q) (st : Locals) :
  detection_body_with calculate_iou iou_threshold gt_boxes gt_labels
    pred_boxes pred_labels d st
  = detection_body iou_threshold gt_boxes gt_labels pred_boxes pred_labels d st.
Proof. reflexivity. Qed.


(** A surviving detection, once its matching loop has been run. *)
Lemma detection_body_with_matched (iou_threshold : Q)
      (gt_boxes : list Box) (gt_labels : list Z)
      (pred_boxes : list Box) (pred_labels : list Z)
      (i : nat) (score : Q) (st : Locals)
      (pb : Box) (best : Q) (gi : option nat) :
  ~ score < confidence_threshold ->
  nth_error pred_boxes i = Some pb ->
  for_each (enumerate gt_boxes) (match_body_with iou_of (swap_axes pb))
    (0, gt_index st) = inr (best, gi) ->
  detection_body_with iou_of iou_threshold gt_boxes gt_labels pred_boxes
    pred_labels (i, score) st =
  if Qltb iou_threshold best then
    pl <- py_get pred_labels i ;;
    j <- read_local gi ;;
    gl <- py_get gt_labels j ;;
    if Z.eqb pl gl then
      ret (mkLocals (true_positives st + 1) (false_positives st)
             (false_negatives st) gi)
    else
      ret (mkLocals (true_positives st) (false_positives st + 1)
             (false_negatives st) gi)
  else
    ret (mkLocals (true_positives st) (false_positives st + 1)
           (false_negatives st) gi).
Proof.
  intros S B M. unfold detection_body_with.
  destruct (Qltb_spec score confidence_threshold); [contradiction |].
  unfold py_get at 1. rewrite B. cbn [bind ret Monad_either]. rewrite M.
  reflexivity.
Qed.

End ReturnedIoU.




(** C9, as stated, fails under a negative IoU threshold: on an image
    without ground-truth boxes the detection of score 0.9 survives the
    confidence filter, but its iteration reads [gt_index] before any
    assignment and raises; it increments neither counter, and the run has
    no state after it. *)
Lemma negative_threshold_counts_nothing :
  ~ 9 # 10 < confidence_threshold /\
  detection_body (-1 # 2) [] [] [unit_box] [7%Z] (0%nat, 9 # 10) initial_locals
  = inl UnboundLocalError /\
  locals_at [mkExample tt [] []] sample_detector (-1 # 2) 100 0 0
  = inr initial_locals /\
  locals_at [mkExample tt [] []] sample_detector (-1 # 2) 100 0 1
  = inl UnboundLocalError.
Proof.
  split; [vm_compute; discriminate |]. repeat split; reflexivity.
Qed.

(** X13. A run over a single image with one ground-truth box and one
    detection that passes the confidence filter and carries the label of
    the box, for which [calculate_iou], in whatever arithmetic, returns a
    number above the IoU threshold (the box against the detection's box with
    its axes exchanged), under a threshold that is not negative, reports
    TP = 1, FP = 0, FN = 0, precision 1 and recall 1. *)
Theorem single_matched_detection {Image : Type}
    (iou_of : Box -> Box -> py Q) (detector : Image -> Detections)
    (iou_threshold : Q) (example : Example Image) (num_samples : nat)
    (g p : Box) (l : Z) (s c v : Q) :
  0 <= iou_threshold ->
  objects_bbox example = [g] ->
  objects_label example = [l] ->
  detector (image example) = mkDetections [p] [s] [c] ->
  ~ s < confidence_threshold ->
  py_int c = l ->
  iou_of g (swap_axes p) = inr v ->
  iou_threshold < v ->
  exists r,
    evaluate_model_performance_with iou_of [example] detector iou_threshold
      (S num_samples) = inr r /\
    True_Positives r = 1%Z /\ False_Positives r = 0%Z /\
    False_Negatives r = 0%Z /\ Precision r == 1 /\ Recall r == 1.
Proof.
  intros T Eb El Ed High Lab Ret Above.
  assert (for_each (enumerate [g]) (match_body_with iou_of (swap_axes p))
            (0, None) = inr (v, Some 0%nat)) as M.
  { change (enumerate [g]) with [(0%nat, g)]. rewrite for_each_cons.
    unfold match_body_with. rewrite Ret. cbn [bind ret Monad_either].
    destruct (Qltb_spec 0 v); [reflexivity | lra]. }
  assert (image_body_with iou_of detector iou_threshold example initial_locals
          = inr (mkLocals 1 0 0 (Some 0%nat))) as Step.
  { unfold image_body_with; cbv zeta. rewrite Eb, El, Ed.
    cbn [detection_scores detection_boxes detection_classes map].
    change (enumerate [s]) with [(0%nat, s)].
    rewrite for_each_cons.
    rewrite (detection_body_with_matched iou_of iou_threshold [g] [l] [p]
               [py_int c] 0 s initial_locals p v (Some 0%nat) High eq_refl M).
    destruct (Qltb_spec iou_threshold v); [| contradiction].
    cbn. rewrite Lab, Z.eqb_refl. reflexivity. }
  unfold evaluate_model_performance_with.
  cbn [firstn]. rewrite firstn_nil, for_each_cons, Step. cbn [for_each].
  eexists. split; [reflexivity |]. cbn.
  repeat split; reflexivity.
Qed.

Lemma single_matched_detection_witness :
  0 <= 1 # 2 /\ ~ 9 # 10 < confidence_threshold /\
  calculate_iou (mkBox 0 0 3 4) (swap_axes (mkBox 0 0 4 3)) = inr (12 # 12) /\
  1 # 2 < 12 # 12 /\
  exists r,
    evaluate_model_performance_with calculate_iou
      [mkExample tt [mkBox 0 0 3 4] [7%Z]]
      (fun _ : unit => mkDetections [mkBox 0 0 4 3] [9 # 10] [7])
      (1 # 2) 100 = inr r /\
    True_Positives r = 1%Z /\ False_Positives r = 0%Z /\
    False_Negatives r = 0%Z /\ Precision r == 1 /\ Recall r == 1.
Proof.
  assert (0 <= 1 # 2) as T by (vm_compute; discriminate).
  assert (~ 9 # 10 < confidence_threshold) as High
      by (vm_compute; discriminate).
  assert (1 # 2 < 12 # 12) as Above by (vm_compute; reflexivity).
  split; [exact T |]. split; [exact High |]. split; [reflexivity |].
  split; [exact Above |].
  exact (single_matched_detection calculate_iou
           (fun _ : unit => mkDetections [mkBox 0 0 4 3] [9 # 10] [7])
           (1 # 2) (mkExample tt [mkBox 0 0 3 4] [7%Z]) 99
           (mkBox 0 0 3 4) (mkBox 0 0 4 3) 7%Z (9 # 10) 7 (12 # 12)
           T eq_refl eq_refl eq_refl High eq_refl eq_refl Above).
Defined.

(** In float32, the type of the boxes inside the evaluator, the same two
    effects appear from sides of [2**64] up and of [2**-80] down. *)
Lemma calculate_iou_float32_extremes :
  IEEE.valid_box IEEE.huge_box32 = true /\
  IEEE.calculate_iou IEEE.binary32 IEEE.huge_box32 IEEE.huge_box32
    = inr S754_nan /\
  IEEE.non_degenerate IEEE.tiny_box32 = true /\
  IEEE.calculate_iou IEEE.binary32 IEEE.tiny_box32 IEEE.tiny_box32
    = inr IEEE.zero.
Proof. repeat split; vm_compute; reflexivity. Qed.
